(** * Rollback of the Tendermint state store (internal/state/rollback.go)

    A shallow embedding of [Rollback] and [resetPrivValidatorConfig].
    The two stores and the private-validator files are the three parts of a
    [World]; every call on a collaborator is appended to a trace, so that
    statements about which calls were made (and in which order) can be read
    off the final world. *)

From Stdlib Require Import ZArith List String Ascii Bool Lia DecimalString.
Import ListNotations.
Open Scope string_scope.
Open Scope Z_scope.

Set Implicit Arguments.

(* ================================================================== *)
(** ** Go's [int64] *)

Definition min_int64 : Z := - 2 ^ 63.
Definition max_int64 : Z := 2 ^ 63 - 1.

Definition in_int64 (z : Z) : Prop := min_int64 <= z <= max_int64.

(** Two's complement wrap-around of a mathematical integer. *)
Definition wrap64 (z : Z) : Z := (z + 2 ^ 63) mod 2 ^ 64 - 2 ^ 63.

Definition add64 (a b : Z) : Z := wrap64 (a + b).
Definition sub64 (a b : Z) : Z := wrap64 (a - b).

(* ================================================================== *)
(** ** Byte slices, errors and formatting *)

(** A [[]byte]; [None] is the nil slice. *)
Definition bytes : Type := option (list Byte.byte).

(** Go's [error] values: [errors.New] and [fmt.Errorf] without [%w] give a
    plain message, [fmt.Errorf] with [%w] keeps the wrapped cause. *)
Inductive error : Type :=
| errorString (s : string)
| wrapError (msg : string) (err : error).

(** The [Error()] method. *)
Definition Error (e : error) : string :=
  match e with
  | errorString s => s
  | wrapError msg _ => msg
  end.

(** [errors.New(s)]. *)
Definition errors_New (s : string) : error := errorString s.

(** [fmt.Errorf(prefix + "%w", err)]. *)
Definition Errorf_w (prefix : string) (err : error) : error :=
  wrapError (prefix ++ Error err) err.

(** The verb [%d] on an [int64]. *)
Definition fmt_d (z : Z) : string := NilZero.string_of_int (Z.to_int z).

Definition newline : string := String (ascii_of_nat 10) EmptyString.

(* ================================================================== *)
(** ** Control flow of a Go function body

    A statement either falls through to the next one, leaves the function
    with its result, or panics. *)

Inductive step (R A : Type) : Type :=
| Next (a : A)
| Return (r : R)
| Panic (msg : string).

Arguments Next {R A} a.
Arguments Return {R A} r.
Arguments Panic {R A} msg.

Definition Fn (W R A : Type) : Type := W -> W * step R A.

Definition ret {W R A : Type} (a : A) : Fn W R A := fun w => (w, Next a).

Definition bind {W R A B : Type} (c : Fn W R A) (k : A -> Fn W R B) : Fn W R B :=
  fun w =>
    match c w with
    | (w', Next a) => k a w'
    | (w', Return r) => (w', Return r)
    | (w', Panic msg) => (w', Panic msg)
    end.

(** The statement [return r]. *)
Definition return_ {W R A : Type} (r : R) : Fn W R A := fun w => (w, Return r).

Definition panic {W R A : Type} (msg : string) : Fn W R A := fun w => (w, Panic msg).

(** [if c { body }] without an else branch. *)
Definition when {W R : Type} (c : bool) (body : Fn W R unit) : Fn W R unit :=
  if c then body else ret tt.

(** [if err != nil { body }]. *)
Definition ifErr {W R : Type} (err : option error) (body : error -> Fn W R unit)
  : Fn W R unit :=
  match err with
  | Some e => body e
  | None => ret tt
  end.

(** [if p == nil { body }] for a pointer [p]. *)
Definition ifNil {W R A : Type} (p : option A) (body : Fn W R unit) : Fn W R unit :=
  match p with
  | None => body
  | Some _ => ret tt
  end.

(** [*p]: a nil pointer dereference panics. *)
Definition deref {W R A : Type} (p : option A) : Fn W R A :=
  match p with
  | Some a => ret a
  | None => panic "runtime error: invalid memory address or nil pointer dereference"
  end.

Declare Scope go_scope.
Delimit Scope go_scope with go.

Notation "x <- c ;; k" := (bind c (fun x => k))
  (at level 100, c at next level, right associativity) : go_scope.
Notation "' pat <- c ;; k" := (bind c (fun x => match x with pat => k end))
  (at level 100, pat pattern, c at next level, right associativity) : go_scope.
Notation "c ;; k" := (bind c (fun _ => k))
  (at level 100, right associativity) : go_scope.

(** What a caller observes of a call. *)
Inductive outcome (R : Type) : Type :=
| Returned (r : R)
| Panicked (msg : string).

Arguments Returned {R} r.
Arguments Panicked {R} msg.

(** Calling a function whose body always ends in [return]. *)
Definition call {W R : Type} (body : Fn W R Empty_set) : W -> W * outcome R :=
  fun w =>
    match body w with
    | (w', Next a) => match a with end
    | (w', Return r) => (w', Returned r)
    | (w', Panic msg) => (w', Panicked msg)
    end.

(* ================================================================== *)
(** ** Data of the packages [version], [types] and [state] *)

(** [version.Consensus]: two [uint64] protocol numbers. *)
Module version.
Record Consensus : Type := { Block : Z; App : Z }.
End version.

(** [types.Header] and [types.BlockMeta], with the fields [Rollback] reads.
    [types.BlockID] and [time.Time] are declared outside this file and stay
    abstract. *)
Module types.
Section Defs.
Context {types_BlockID time_Time : Type}.

Record Header : Type := {
  Height : Z;
  Time : time_Time;
  AppHash : bytes;
  LastResultsHash : bytes
}.

(** The field [Header] is [Header_] here, next to the type of that name. *)
Record BlockMeta : Type := {
  BlockID : types_BlockID;
  Header_ : Header
}.

End Defs.
Arguments Header : clear implicits.
Arguments BlockMeta : clear implicits.
End types.

Section RollbackModel.

(** Types declared in other packages, of which [Rollback] only moves values
    around. *)
Context {types_BlockID time_Time types_ValidatorSet types_ConsensusParams : Type}.
Context {config_PrivValidatorConfig privval_FilePV : Type}.

(** [state.Version]. *)
Record state_Version : Type := {
  Consensus : version.Consensus;
  Software : string
}.

(** [state.State]; the three validator sets are pointers. *)
Record State : Type := {
  Version : state_Version;
  ChainID : string;
  InitialHeight : Z;
  LastBlockHeight : Z;
  LastBlockID : types_BlockID;
  LastBlockTime : time_Time;
  NextValidators : option types_ValidatorSet;
  Validators : option types_ValidatorSet;
  LastValidators : option types_ValidatorSet;
  LastHeightValidatorsChanged : Z;
  ConsensusParams : types_ConsensusParams;
  LastHeightConsensusParamsChanged : Z;
  LastResultsHash : bytes;
  AppHash : bytes
}.

Local Abbreviation BlockMeta := (types.BlockMeta types_BlockID time_Time).

(** What the code uses of declarations that live in other files:
    [previousParams.Version.AppVersion], the method [State.IsEmpty], the
    constants [version.BlockProtocol] and [version.TMVersion], and the two
    path methods of [config.PrivValidatorConfig]. *)
Class Externals : Type := {
  Version_AppVersion : types_ConsensusParams -> Z;
  IsEmpty : State -> bool;
  version_BlockProtocol : Z;
  version_TMVersion : string;
  KeyFile : config_PrivValidatorConfig -> string;
  StateFile : config_PrivValidatorConfig -> string
}.

(* ------------------------------------------------------------------ *)
(** *** The collaborators

    Each interface is a class over the type of the collaborator's
    persistent content.  A method that only reads is a function of that
    content; a method that writes returns the new content with its error. *)

Class BlockStore (BS : Type) : Type := {
  Height : BS -> Z;
  LoadBlockMeta : BS -> Z -> option BlockMeta;
  DeleteLatestBlock : BS -> BS * option error
}.

Class Store (SS : Type) : Type := {
  Load : SS -> State * option error;
  Save : SS -> State -> SS * option error;
  LoadValidators : SS -> Z -> option types_ValidatorSet * option error;
  LoadConsensusParams : SS -> Z -> types_ConsensusParams * option error
}.

(** Package [privval] over the files [FS] that hold the signing key and the
    last sign state: [LoadFilePV] reads them, [FilePV.Reset] rewrites the
    state file. *)
Class PrivVal (FS : Type) : Type := {
  LoadFilePV : FS -> string -> string -> privval_FilePV * option error;
  Reset : FS -> privval_FilePV -> FS * option error
}.

Context `{Externals} {BS SS FS : Type} `{BlockStore BS} `{Store SS} `{PrivVal FS}.

(** One entry of the trace per call on a collaborator, with its arguments
    and, for a call that can fail, its error. *)
Inductive event : Type :=
| EvLoad (err : option error)
| EvHeight
| EvLoadBlockMeta (height : Z)
| EvLoadValidators (height : Z) (err : option error)
| EvLoadConsensusParams (height : Z) (err : option error)
| EvSave (st : State) (err : option error)
| EvDeleteLatestBlock (err : option error)
| EvLoadFilePV (keyFile stateFile : string) (err : option error)
| EvReset (err : option error)
| EvPrint (s : string).

Record World : Type := {
  w_bs : BS;
  w_ss : SS;
  w_fs : FS;
  w_trace : list event
}.

Definition log (e : event) (w : World) : World :=
  {| w_bs := w_bs w; w_ss := w_ss w; w_fs := w_fs w;
     w_trace := (w_trace w ++ [e])%list |}.

(** The calls that write to a store or to the signing files. *)
Definition is_write (e : event) : bool :=
  match e with
  | EvSave _ _ | EvDeleteLatestBlock _ | EvReset _ => true
  | _ => false
  end.

Definition is_DeleteLatestBlock (e : event) : bool :=
  match e with EvDeleteLatestBlock _ => true | _ => false end.

Definition is_Save (e : event) : bool :=
  match e with EvSave _ _ => true | _ => false end.

(** A use of the signing checkpoint: loading it or resetting it. *)
Definition is_checkpoint (e : event) : bool :=
  match e with EvLoadFilePV _ _ _ | EvReset _ => true | _ => false end.

(** The states handed to [Save], in order. *)
Definition saved (tr : list event) : list State :=
  flat_map (fun e => match e with EvSave st _ => [st] | _ => [] end) tr.

(** How many entries of a trace satisfy [p]. *)
Definition count (p : event -> bool) (tr : list event) : nat :=
  List.length (filter p tr).

(** The calls, as statements of a function body. *)
Definition ss_Load {R} : Fn World R (State * option error) :=
  fun w => let r := Load (w_ss w) in (log (EvLoad (snd r)) w, Next r).

Definition bs_Height {R} : Fn World R Z :=
  fun w => (log EvHeight w, Next (Height (w_bs w))).

Definition bs_LoadBlockMeta {R} (height : Z) : Fn World R (option BlockMeta) :=
  fun w => (log (EvLoadBlockMeta height) w, Next (LoadBlockMeta (w_bs w) height)).

Definition bs_DeleteLatestBlock {R} : Fn World R (option error) :=
  fun w =>
    let (bs', err) := DeleteLatestBlock (w_bs w) in
    (log (EvDeleteLatestBlock err)
       {| w_bs := bs'; w_ss := w_ss w; w_fs := w_fs w; w_trace := w_trace w |},
     Next err).

Definition ss_LoadValidators {R} (height : Z)
  : Fn World R (option types_ValidatorSet * option error) :=
  fun w =>
    let r := LoadValidators (w_ss w) height in
    (log (EvLoadValidators height (snd r)) w, Next r).

Definition ss_LoadConsensusParams {R} (height : Z)
  : Fn World R (types_ConsensusParams * option error) :=
  fun w =>
    let r := LoadConsensusParams (w_ss w) height in
    (log (EvLoadConsensusParams height (snd r)) w, Next r).

Definition ss_Save {R} (st : State) : Fn World R (option error) :=
  fun w =>
    let (ss', err) := Save (w_ss w) st in
    (log (EvSave st err)
       {| w_bs := w_bs w; w_ss := ss'; w_fs := w_fs w; w_trace := w_trace w |},
     Next err).

Definition privval_LoadFilePV {R} (keyFile stateFile : string)
  : Fn World R (privval_FilePV * option error) :=
  fun w =>
    let r := LoadFilePV (w_fs w) keyFile stateFile in
    (log (EvLoadFilePV keyFile stateFile (snd r)) w, Next r).

Definition filePv_Reset {R} (filePv : privval_FilePV) : Fn World R (option error) :=
  fun w =>
    let (fs', err) := Reset (w_fs w) filePv in
    (log (EvReset err)
       {| w_bs := w_bs w; w_ss := w_ss w; w_fs := fs'; w_trace := w_trace w |},
     Next err).

(** [fmt.Printf] and [fmt.Println]: the text written to standard output. *)
Definition Print {R} (s : string) : Fn World R unit :=
  fun w => (log (EvPrint s) w, Next tt).

(** A call of a Go function from a body: a panic of the callee goes on
    through the caller. *)
Definition invoke {R A} (f : World -> World * outcome A) : Fn World R A :=
  fun w =>
    match f w with
    | (w', Returned a) => (w', Next a)
    | (w', Panicked msg) => (w', Panic msg)
    end.

(* ------------------------------------------------------------------ *)
(** *** The two functions of rollback.go *)

Local Open Scope go_scope.

Definition resetPrivValidatorConfig (privValidatorConfig : config_PrivValidatorConfig)
  : World -> World * outcome (option error) :=
  call (
    '(filePv, loadErr) <-
       privval_LoadFilePV (KeyFile privValidatorConfig) (StateFile privValidatorConfig) ;;
    ifErr loadErr (fun e =>
      return_ (Some (Errorf_w "failed to load private validator file: " e))) ;;
    resetErr <- filePv_Reset filePv ;;
    ifErr resetErr (fun e =>
      return_ (Some (Errorf_w "failed to reset private validator file: " e))) ;;
    return_ None).

(** The message of the error returned when the two heights do not fit. *)
Definition heightMismatch (stateHeight blockHeight : Z) : error :=
  errorString ("statestore height (" ++ fmt_d stateHeight
               ++ ") is not one below or equal to blockstore height ("
               ++ fmt_d blockHeight ++ ")").

Definition blockNotFound (height : Z) : error :=
  errorString ("block at height " ++ fmt_d height ++ " not found").

(** Lines 84 to 133 of [Rollback]: the state built from the old state, the
    two block metas and the loaded validator set and parameters.  No call is
    made in these lines. *)
Definition rolledBackState (removeBlock : bool) (invalidState : State)
    (rollbackHeight : Z) (rollbackBlock latestBlock : BlockMeta)
    (previousLastValidatorSet : option types_ValidatorSet)
    (previousParams : types_ConsensusParams) : State :=
  let valChangeHeight := LastHeightValidatorsChanged invalidState in
  let valChangeHeight :=
    if valChangeHeight >? rollbackHeight then add64 rollbackHeight 1
    else valChangeHeight in

  let paramsChangeHeight := LastHeightConsensusParamsChanged invalidState in
  let paramsChangeHeight :=
    if paramsChangeHeight >? rollbackHeight then add64 rollbackHeight 1
    else paramsChangeHeight in

  let rolledBackAppHash := types.LastResultsHash (types.Header_ latestBlock) in
  let rolledBackLastResultHash := types.AppHash (types.Header_ latestBlock) in

  let rolledBackAppHash :=
    if removeBlock then types.AppHash (types.Header_ rollbackBlock)
    else rolledBackAppHash in
  let rolledBackLastResultHash :=
    if removeBlock then types.LastResultsHash (types.Header_ rollbackBlock)
    else rolledBackLastResultHash in

  {|
    Version := {|
      Consensus := {|
        version.Block := version_BlockProtocol;
        version.App := Version_AppVersion previousParams |};
      Software := version_TMVersion |};
    ChainID := ChainID invalidState;
    InitialHeight := InitialHeight invalidState;

    LastBlockHeight := types.Height (types.Header_ rollbackBlock);
    LastBlockID := types.BlockID rollbackBlock;
    LastBlockTime := types.Time (types.Header_ rollbackBlock);

    LastResultsHash := rolledBackAppHash;
    AppHash := rolledBackLastResultHash;

    NextValidators := Validators invalidState;
    Validators := LastValidators invalidState;
    LastValidators := previousLastValidatorSet;
    LastHeightValidatorsChanged := valChangeHeight;

    ConsensusParams := previousParams;
    LastHeightConsensusParamsChanged := paramsChangeHeight
  |}.

(** The result triple [(int64, []byte, error)]. *)
Definition result : Type := Z * bytes * option error.

Definition Rollback (removeBlock : bool)
    (privValidatorConfig : option config_PrivValidatorConfig)
  : World -> World * outcome result :=
  call (
    '(invalidState, err) <- ss_Load ;;
    ifErr err (fun e => return_ (-1, None, Some e)) ;;
    when (IsEmpty invalidState)
      (return_ (-1, None, Some (errors_New "no state found"))) ;;

    height <- bs_Height ;;

    when (height =? add64 (LastBlockHeight invalidState) 1) (
      Print ("Invalid state in the latest block height=" ++ fmt_d height
             ++ ", removing it first " ++ newline) ;;
      when removeBlock (
        err <- bs_DeleteLatestBlock ;;
        ifErr err (fun e => return_
          (-1, None,
           Some (Errorf_w "failed to remove final block from blockstore: " e)))) ;;
      return_ (LastBlockHeight invalidState, AppHash invalidState, None)) ;;

    when (negb (height =? LastBlockHeight invalidState))
      (return_ (-1, None,
                Some (heightMismatch (LastBlockHeight invalidState) height))) ;;

    let rollbackHeight := sub64 (LastBlockHeight invalidState) 1 in
    rollbackBlockPtr <- bs_LoadBlockMeta rollbackHeight ;;
    ifNil rollbackBlockPtr
      (return_ (-1, None, Some (blockNotFound rollbackHeight))) ;;

    latestBlockPtr <- bs_LoadBlockMeta (LastBlockHeight invalidState) ;;
    ifNil latestBlockPtr
      (return_ (-1, None, Some (blockNotFound (LastBlockHeight invalidState)))) ;;

    '(previousLastValidatorSet, err) <- ss_LoadValidators rollbackHeight ;;
    ifErr err (fun e => return_ (-1, None, Some e)) ;;

    '(previousParams, err) <- ss_LoadConsensusParams (add64 rollbackHeight 1) ;;
    ifErr err (fun e => return_ (-1, None, Some e)) ;;

    latestBlock <- deref latestBlockPtr ;;
    rollbackBlock <- deref rollbackBlockPtr ;;
    let rolledBackState :=
      rolledBackState removeBlock invalidState rollbackHeight rollbackBlock
        latestBlock previousLastValidatorSet previousParams in

    err <- ss_Save rolledBackState ;;
    ifErr err (fun e => return_
      (-1, None, Some (Errorf_w "failed to save rolled back state: " e))) ;;

    when removeBlock (
      Print ("Removing block " ++ fmt_d height ++ newline) ;;
      err <- bs_DeleteLatestBlock ;;
      ifErr err (fun e => return_
        (-1, None,
         Some (Errorf_w "failed to remove final block from blockstore: " e))) ;;

      cfg <- deref privValidatorConfig ;;
      err <- invoke (resetPrivValidatorConfig cfg) ;;
      ifErr err (fun e => return_ (-1, None, Some e))) ;;

    return_ (LastBlockHeight rolledBackState, AppHash rolledBackState, None)).

(* ------------------------------------------------------------------ *)
(** *** Reading a trace *)

(** The error a call reported; [None] for a call that cannot report one or
    that succeeded. *)
Definition event_err (e : event) : option error :=
  match e with
  | EvLoad err
  | EvLoadValidators _ err
  | EvLoadConsensusParams _ err
  | EvSave _ err
  | EvDeleteLatestBlock err
  | EvLoadFilePV _ _ err
  | EvReset err => err
  | EvHeight | EvLoadBlockMeta _ | EvPrint _ => None
  end.

(** The three calls that write. *)
Inductive write_kind : Type := WSave | WDeleteLatestBlock | WReset.

(** The writes of a trace, in order. *)
Definition writes (tr : list event) : list write_kind :=
  flat_map (fun e =>
              match e with
              | EvSave _ _ => [WSave]
              | EvDeleteLatestBlock _ => [WDeleteLatestBlock]
              | EvReset _ => [WReset]
              | _ => []
              end) tr.

(** [reported] is [cause] itself or [cause] under one [fmt.Errorf] with
    [%w]. *)
Definition reports (reported cause : error) : Prop :=
  reported = cause \/ exists prefix, reported = Errorf_w prefix cause.

End RollbackModel.

(* ================================================================== *)
(** ** In-memory collaborators

    Concrete stores on which the functions above run: a block store that is
    a height and a table of metas, a state store that is the current state
    and two tables, and a signing checkpoint that is the last signed height.
    Each can be set to fail. *)

Module Mem.

Definition BlockID : Type := string.
Definition Time : Type := Z.
Definition ValidatorSet : Type := list string.
Record Params : Type := { AppVersion : Z; MaxBytes : Z }.
Definition PrivValidatorConfig : Type := string.
(** The loaded checkpoint: the last signed height. *)
Definition FilePV : Type := Z.

Definition MState : Type := @State BlockID Time ValidatorSet Params.
Definition Meta : Type := types.BlockMeta BlockID Time.

#[global] Instance externals
  : @Externals BlockID Time ValidatorSet Params PrivValidatorConfig := {|
  Version_AppVersion := AppVersion;
  IsEmpty := fun st : MState =>
    match Validators st with None => true | Some _ => false end;
  version_BlockProtocol := 11;
  version_TMVersion := "0.35.0";
  KeyFile := fun root => root ++ "/config/priv_validator_key.json";
  StateFile := fun root => root ++ "/data/priv_validator_state.json"
|}.

Fixpoint lookup {A : Type} (h : Z) (tbl : list (Z * A)) : option A :=
  match tbl with
  | [] => None
  | (k, a) :: tbl' => if k =? h then Some a else lookup h tbl'
  end.

Record BlockDB : Type := {
  db_height : Z;
  db_metas : list (Z * Meta);
  db_deleteErr : option error
}.

#[global] Instance blockStore : @BlockStore BlockID Time BlockDB := {|
  Height := db_height;
  LoadBlockMeta := fun db h => lookup h (db_metas db);
  DeleteLatestBlock := fun db =>
    match db_deleteErr db with
    | Some e => (db, Some e)
    | None =>
        ({| db_height := db_height db - 1;
            db_metas := filter (fun p => negb (fst p =? db_height db)) (db_metas db);
            db_deleteErr := None |}, None)
    end
|}.

Record StateDB : Type := {
  sd_state : MState;
  sd_loadErr : option error;
  sd_validators : list (Z * ValidatorSet);
  sd_params : list (Z * Params);
  sd_saveErr : option error
}.

#[global] Instance store
  : @Store BlockID Time ValidatorSet Params StateDB := {|
  Load := fun sd => (sd_state sd, sd_loadErr sd);
  Save := fun sd st =>
    match sd_saveErr sd with
    | Some e => (sd, Some e)
    | None =>
        ({| sd_state := st; sd_loadErr := None;
            sd_validators := sd_validators sd; sd_params := sd_params sd;
            sd_saveErr := None |}, None)
    end;
  LoadValidators := fun sd h =>
    match lookup h (sd_validators sd) with
    | Some v => (Some v, None)
    | None => (None, Some (errorString "validators not found"))
    end;
  LoadConsensusParams := fun sd h =>
    match lookup h (sd_params sd) with
    | Some p => (p, None)
    | None => ({| AppVersion := 0; MaxBytes := 0 |},
               Some (errorString "consensus params not found"))
    end
|}.

Record SignFiles : Type := {
  sf_lastSigned : Z;
  sf_loadErr : option error;
  sf_resetErr : option error
}.

#[global] Instance privVal : @PrivVal FilePV SignFiles := {|
  LoadFilePV := fun sf _ _ => (sf_lastSigned sf, sf_loadErr sf);
  Reset := fun sf _ =>
    match sf_resetErr sf with
    | Some e => (sf, Some e)
    | None => ({| sf_lastSigned := 0; sf_loadErr := None; sf_resetErr := None |}, None)
    end
|}.

Definition MWorld : Type :=
  @World BlockID Time ValidatorSet Params BlockDB StateDB SignFiles.

(** The scenario of the specification: both stores at height 100, metas at
    99 and 100, validators at 99, parameters at 100. *)
Definition meta (h : Z) (app results : Byte.byte) : Meta := {|
  types.BlockID := "block-" ++ fmt_d h;
  types.Header_ := {|
    types.Height := h;
    types.Time := 1000 + h;
    types.AppHash := Some [app];
    types.LastResultsHash := Some [results] |} |}.

Definition meta99 : Meta := meta 99 Byte.xa9 Byte.xb9.
Definition meta100 : Meta := meta 100 Byte.xa0 Byte.xb0.
Definition meta101 : Meta := meta 101 Byte.xa1 Byte.xb1.

Definition state100 : MState := {|
  Version := {| Consensus := {| version.Block := 11; version.App := 2 |};
                Software := "0.35.0" |};
  ChainID := "test-chain";
  InitialHeight := 1;
  LastBlockHeight := 100;
  LastBlockID := "block-100";
  LastBlockTime := 1100;
  NextValidators := Some ["v1"; "v2"; "v3"];
  Validators := Some ["v1"; "v2"];
  LastValidators := Some ["v1"];
  LastHeightValidatorsChanged := 101;
  ConsensusParams := {| AppVersion := 2; MaxBytes := 2048 |};
  LastHeightConsensusParamsChanged := 57;
  LastResultsHash := Some [Byte.xb1];
  AppHash := Some [Byte.xa1]
|}.

Definition stateDB (saveErr : option error) : StateDB := {|
  sd_state := state100;
  sd_loadErr := None;
  sd_validators := [(99, ["v0"]); (100, ["v1"])];
  sd_params := [(100, {| AppVersion := 1; MaxBytes := 1024 |})];
  sd_saveErr := saveErr
|}.

Definition blockDB (height : Z) (deleteErr : option error) : BlockDB := {|
  db_height := height;
  db_metas := [(99, meta99); (100, meta100); (101, meta101)];
  db_deleteErr := deleteErr
|}.

Definition signFiles (loadErr resetErr : option error) : SignFiles := {|
  sf_lastSigned := 100; sf_loadErr := loadErr; sf_resetErr := resetErr |}.

Definition world (height : Z) : MWorld := {|
  w_bs := blockDB height None;
  w_ss := stateDB None;
  w_fs := signFiles None None;
  w_trace := []
|}.

(** The same scenario with a signing checkpoint whose reset fails. *)
Definition world_resetFails (height : Z) : MWorld := {|
  w_bs := blockDB height None;
  w_ss := stateDB None;
  w_fs := signFiles None (Some (errorString "disk full"));
  w_trace := []
|}.

(** Worlds for the paths that fail. *)
Definition mkWorld (bs : BlockDB) (ss : StateDB) (fs : SignFiles) : MWorld := {|
  w_bs := bs; w_ss := ss; w_fs := fs; w_trace := [] |}.

Definition ioError : error := errorString "input/output error".

(** A state store that cannot be read. *)
Definition stateDB_unreadable : StateDB := {|
  sd_state := state100;
  sd_loadErr := Some ioError;
  sd_validators := [];
  sd_params := [];
  sd_saveErr := None
|}.

(** The state of a store that was never written: no validators. *)
Definition state0 : MState := {|
  Version := {| Consensus := {| version.Block := 0; version.App := 0 |};
                Software := "" |};
  ChainID := "";
  InitialHeight := 0;
  LastBlockHeight := 0;
  LastBlockID := "";
  LastBlockTime := 0;
  NextValidators := None;
  Validators := None;
  LastValidators := None;
  LastHeightValidatorsChanged := 0;
  ConsensusParams := {| AppVersion := 0; MaxBytes := 0 |};
  LastHeightConsensusParamsChanged := 0;
  LastResultsHash := None;
  AppHash := None
|}.

Definition stateDB_empty : StateDB := {|
  sd_state := state0;
  sd_loadErr := None;
  sd_validators := [];
  sd_params := [];
  sd_saveErr := None
|}.

(** The state store at height 100 with the given two tables. *)
Definition stateDB_tables (validators : list (Z * ValidatorSet))
    (params : list (Z * Params)) : StateDB := {|
  sd_state := state100;
  sd_loadErr := None;
  sd_validators := validators;
  sd_params := params;
  sd_saveErr := None
|}.

(** A block store at height 100 that has lost the meta of block 99. *)
Definition blockDB_pruned : BlockDB := {|
  db_height := 100;
  db_metas := [(100, meta100)];
  db_deleteErr := None
|}.

(** A block store at height 100 whose meta filed under 99 records the
    height 42. *)
Definition blockDB_misfiled : BlockDB := {|
  db_height := 100;
  db_metas := [(99, meta 42 Byte.xa9 Byte.xb9); (100, meta100)];
  db_deleteErr := None
|}.

End Mem.

(* ================================================================== *)
(** ** Facts about [int64] arithmetic *)

Unset Implicit Arguments.

Lemma wrap64_in_int64 (z : Z) : in_int64 (wrap64 z).
Proof.
  unfold in_int64, wrap64, min_int64, max_int64.
  pose proof (Z.mod_pos_bound (z + 2 ^ 63) (2 ^ 64) ltac:(lia)). lia.
Qed.

Lemma wrap64_id (z : Z) : in_int64 z -> wrap64 z = z.
Proof.
  unfold in_int64, wrap64, min_int64, max_int64. intros Hz.
  rewrite Z.mod_small by lia. lia.
Qed.

(** Adding one never gives the same number back, also when it wraps. *)
Lemma add64_1_neq (z : Z) : add64 z 1 <> z.
Proof.
  unfold add64, wrap64. intros E.
  assert (E' : (z + 1 + 2 ^ 63) mod 2 ^ 64 = z + 2 ^ 63) by lia.
  pose proof (Z.mod_pos_bound (z + 1 + 2 ^ 63) (2 ^ 64) ltac:(lia)) as B.
  rewrite E' in B.
  assert (Hm : (z + 2 ^ 63) mod 2 ^ 64 = z + 2 ^ 63) by (apply Z.mod_small; lia).
  replace (z + 1 + 2 ^ 63) with ((z + 2 ^ 63) + 1) in E' by lia.
  rewrite Z.add_mod in E' by lia.
  rewrite Hm in E'. change (1 mod 2 ^ 64) with 1 in E'.
  destruct (Z.eq_dec (z + 2 ^ 63) (2 ^ 64 - 1)) as [K | K].
  - rewrite K in E'. vm_compute in E'. discriminate.
  - rewrite Z.mod_small in E' by lia. lia.
Qed.

(** Below another [int64] the successor does not wrap. *)
Lemma add64_1_below (z y : Z) : in_int64 z -> in_int64 y -> z < y -> add64 z 1 = z + 1.
Proof.
  unfold add64, in_int64, min_int64, max_int64. intros Hz Hy Hlt.
  apply wrap64_id. unfold in_int64, min_int64, max_int64. lia.
Qed.

Lemma sub64_1_above (z : Z) : min_int64 < z <= max_int64 -> sub64 z 1 = z - 1.
Proof.
  unfold sub64, min_int64, max_int64. intros Hz.
  apply wrap64_id. unfold in_int64, min_int64, max_int64. lia.
Qed.

(* ================================================================== *)
(** ** Facts about [Rollback] *)

Section RollbackFacts.

Context {types_BlockID time_Time types_ValidatorSet types_ConsensusParams : Type}.
Context {config_PrivValidatorConfig privval_FilePV : Type}.
Context {ext : @Externals types_BlockID time_Time types_ValidatorSet
                 types_ConsensusParams config_PrivValidatorConfig}.
Context {BS SS FS : Type}.
Context {blocks : @BlockStore types_BlockID time_Time BS}.
Context {states : @Store types_BlockID time_Time types_ValidatorSet
                    types_ConsensusParams SS}.
Context {signer : @PrivVal privval_FilePV FS}.

Local Abbreviation World :=
  (@World types_BlockID time_Time types_ValidatorSet types_ConsensusParams BS SS FS).
Local Abbreviation State :=
  (@State types_BlockID time_Time types_ValidatorSet types_ConsensusParams).

(** Unfolds one run of [Rollback] down to the calls on the collaborators. *)
Ltac exec :=
  cbv [Rollback resetPrivValidatorConfig call invoke bind ret return_ panic
       when ifErr ifNil deref ss_Load bs_Height bs_LoadBlockMeta
       bs_DeleteLatestBlock ss_LoadValidators ss_LoadConsensusParams ss_Save
       privval_LoadFilePV filePv_Reset Print log negb];
  cbn [fst snd w_bs w_ss w_fs w_trace].

(** Splits a run on the next result a collaborator may give. *)
Ltac branch :=
  match goal with
  | |- context [match ?x with _ => _ end] =>
      lazymatch x with
      | context [match _ with _ => _ end] => fail
      | _ => destruct x eqn:?
      end
  end.

Ltac paths := repeat (exec; branch); exec.

(** Closes [w_trace w ++ ... = w_trace w ++ ?evs] for the calls made. *)
Ltac calls_made :=
  eexists; split; [rewrite <- ?app_assoc; reflexivity | ].

Lemma eqb_pending_false (S : State) (h : Z) :
  h = LastBlockHeight S -> (h =? add64 (LastBlockHeight S) 1) = false.
Proof.
  intros ->. apply Z.eqb_neq. intros E. symmetry in E.
  revert E. apply add64_1_neq.
Qed.

(** C2: in the pending-block case the state store and the signing files are
    left alone and no [Save] is called.  With [removeBlock = false] no write
    is made at all and the result is [(S.LastBlockHeight, S.AppHash, nil)];
    with [removeBlock = true] exactly one [DeleteLatestBlock] is called, it
    is the only write, and when it succeeds the result is the same. *)
Theorem Rollback_pending_block
    (removeBlock : bool) (pvc : option config_PrivValidatorConfig)
    (w : World) (S : State) :
  Load (w_ss w) = (S, None) ->
  IsEmpty S = false ->
  Height (w_bs w) = add64 (LastBlockHeight S) 1 ->
  let w' := fst (Rollback removeBlock pvc w) in
  let out := snd (Rollback removeBlock pvc w) in
  exists evs,
    w_trace w' = (w_trace w ++ evs)%list /\
    w_ss w' = w_ss w /\ count is_Save evs = 0%nat /\
    w_fs w' = w_fs w /\
    if removeBlock then
      count is_DeleteLatestBlock evs = 1%nat /\
      count is_write evs = 1%nat /\
      w_bs w' = fst (DeleteLatestBlock (w_bs w)) /\
      (snd (DeleteLatestBlock (w_bs w)) = None ->
       out = Returned (LastBlockHeight S, AppHash S, None))
    else
      count is_write evs = 0%nat /\
      w_bs w' = w_bs w /\
      out = Returned (LastBlockHeight S, AppHash S, None).
Proof.
  intros HL HE HH. exec.
  rewrite HL. exec. rewrite HE. exec. rewrite HH, Z.eqb_refl. exec.
  destruct removeBlock; exec.
  - destruct (DeleteLatestBlock (w_bs w)) as [bs' [e|]] eqn:HD; exec;
      calls_made; repeat split; try reflexivity; discriminate.
  - calls_made. repeat split.
Qed.

(** C3: when the block-store height is neither the state's height nor one
    above it, the result is [(-1, nil, err)], where [err] is a plain error
    whose message carries both heights; no write is made and the three
    stores are as before. *)
Theorem Rollback_invariant_violation
    (removeBlock : bool) (pvc : option config_PrivValidatorConfig)
    (w : World) (S : State) :
  Load (w_ss w) = (S, None) ->
  IsEmpty S = false ->
  Height (w_bs w) <> LastBlockHeight S ->
  Height (w_bs w) <> add64 (LastBlockHeight S) 1 ->
  let w' := fst (Rollback removeBlock pvc w) in
  snd (Rollback removeBlock pvc w) =
    Returned (-1, None,
      Some (errorString
        ("statestore height (" ++ fmt_d (LastBlockHeight S)
         ++ ") is not one below or equal to blockstore height ("
         ++ fmt_d (Height (w_bs w)) ++ ")"))) /\
  w_bs w' = w_bs w /\ w_ss w' = w_ss w /\ w_fs w' = w_fs w /\
  exists evs,
    w_trace w' = (w_trace w ++ evs)%list /\ count is_write evs = 0%nat.
Proof.
  intros HL HE Hne Hne1. exec.
  rewrite HL. exec. rewrite HE. exec.
  apply Z.eqb_neq in Hne, Hne1. rewrite Hne1. exec. rewrite Hne. exec.
  repeat split. calls_made. reflexivity.
Qed.

(** The hypotheses of the rollback case, rewritten into a run: the state is
    loaded, the heights are equal, and the four reads succeed. *)
Ltac enter_rollback HL HE HH HR HLt HV HP :=
  exec; rewrite HL; exec; rewrite HE; exec;
  rewrite (eqb_pending_false _ _ HH); exec;
  rewrite HH, Z.eqb_refl; exec;
  rewrite HR; exec; rewrite HLt; exec; rewrite HV; exec; rewrite HP; exec.

(** Names the calls made and the one state handed to [Save]. *)
Ltac saved_state :=
  eexists; eexists; split; [rewrite <- ?app_assoc; reflexivity | ];
  split; [reflexivity | ].

(** In the rollback case, once the four reads have succeeded, [Save] is
    called exactly once, on the state of lines 84 to 133. *)
Lemma Rollback_saves
    (removeBlock : bool) (pvc : option config_PrivValidatorConfig)
    (w : World) (S : State)
    (rollbackBlock latestBlock : types.BlockMeta types_BlockID time_Time)
    (prevValidators : option types_ValidatorSet)
    (prevParams : types_ConsensusParams) :
  Load (w_ss w) = (S, None) ->
  IsEmpty S = false ->
  Height (w_bs w) = LastBlockHeight S ->
  LoadBlockMeta (w_bs w) (sub64 (LastBlockHeight S) 1) = Some rollbackBlock ->
  LoadBlockMeta (w_bs w) (LastBlockHeight S) = Some latestBlock ->
  LoadValidators (w_ss w) (sub64 (LastBlockHeight S) 1) = (prevValidators, None) ->
  LoadConsensusParams (w_ss w) (add64 (sub64 (LastBlockHeight S) 1) 1)
    = (prevParams, None) ->
  exists evs,
    w_trace (fst (Rollback removeBlock pvc w)) = (w_trace w ++ evs)%list /\
    saved evs =
      [rolledBackState removeBlock S (sub64 (LastBlockHeight S) 1)
         rollbackBlock latestBlock prevValidators prevParams].
Proof.
  intros HL HE HH HR HLt HV HP.
  enter_rollback HL HE HH HR HLt HV HP.
  paths; calls_made; reflexivity.
Qed.

(** C1, as the code has it for [removeBlock = false]: the state handed to
    [Save] takes its [AppHash] from the [AppHash] of the block at
    [S.LastBlockHeight] and its [LastResultsHash] from that block's
    [LastResultsHash]; when the save succeeds that [AppHash] is the hash
    returned. *)
Theorem Rollback_hashes_block_kept
    (pvc : option config_PrivValidatorConfig) (w : World) (S : State)
    (rollbackBlock latestBlock : types.BlockMeta types_BlockID time_Time)
    (prevValidators : option types_ValidatorSet)
    (prevParams : types_ConsensusParams) :
  Load (w_ss w) = (S, None) ->
  IsEmpty S = false ->
  Height (w_bs w) = LastBlockHeight S ->
  LoadBlockMeta (w_bs w) (sub64 (LastBlockHeight S) 1) = Some rollbackBlock ->
  LoadBlockMeta (w_bs w) (LastBlockHeight S) = Some latestBlock ->
  LoadValidators (w_ss w) (sub64 (LastBlockHeight S) 1) = (prevValidators, None) ->
  LoadConsensusParams (w_ss w) (add64 (sub64 (LastBlockHeight S) 1) 1)
    = (prevParams, None) ->
  exists evs st,
    w_trace (fst (Rollback false pvc w)) = (w_trace w ++ evs)%list /\
    saved evs = [st] /\
    AppHash st = types.AppHash (types.Header_ latestBlock) /\
    LastResultsHash st = types.LastResultsHash (types.Header_ latestBlock) /\
    (snd (Save (w_ss w) st) = None ->
     snd (Rollback false pvc w) =
       Returned (types.Height (types.Header_ rollbackBlock),
                 types.AppHash (types.Header_ latestBlock), None)).
Proof.
  intros HL HE HH HR HLt HV HP.
  enter_rollback HL HE HH HR HLt HV HP.
  destruct (Save _ _) as [ss' [e|]] eqn:HS; exec; saved_state;
    (split; [reflexivity | split; [reflexivity | ]]);
    rewrite HS; cbn [snd]; intros K; [discriminate K | reflexivity].
Qed.

(** C5, with the condition the code needs: the state handed to [Save] has
    each change height clamped: it is [R + 1] when the old one is above
    [R = S.LastBlockHeight - 1] and the old one otherwise.  Both are at most
    [R + 1]; provided the meta loaded at [R] records the height [R], both are
    at most one above the new [LastBlockHeight]. *)
Theorem Rollback_change_heights
    (removeBlock : bool) (pvc : option config_PrivValidatorConfig)
    (w : World) (S : State)
    (rollbackBlock latestBlock : types.BlockMeta types_BlockID time_Time)
    (prevValidators : option types_ValidatorSet)
    (prevParams : types_ConsensusParams) :
  Load (w_ss w) = (S, None) ->
  IsEmpty S = false ->
  Height (w_bs w) = LastBlockHeight S ->
  LoadBlockMeta (w_bs w) (sub64 (LastBlockHeight S) 1) = Some rollbackBlock ->
  LoadBlockMeta (w_bs w) (LastBlockHeight S) = Some latestBlock ->
  LoadValidators (w_ss w) (sub64 (LastBlockHeight S) 1) = (prevValidators, None) ->
  LoadConsensusParams (w_ss w) (add64 (sub64 (LastBlockHeight S) 1) 1)
    = (prevParams, None) ->
  in_int64 (LastHeightValidatorsChanged S) ->
  in_int64 (LastHeightConsensusParamsChanged S) ->
  let R := sub64 (LastBlockHeight S) 1 in
  exists evs st,
    w_trace (fst (Rollback removeBlock pvc w)) = (w_trace w ++ evs)%list /\
    saved evs = [st] /\
    LastHeightValidatorsChanged st =
      (if LastHeightValidatorsChanged S >? R then R + 1
       else LastHeightValidatorsChanged S) /\
    LastHeightConsensusParamsChanged st =
      (if LastHeightConsensusParamsChanged S >? R then R + 1
       else LastHeightConsensusParamsChanged S) /\
    LastHeightValidatorsChanged st <= R + 1 /\
    LastHeightConsensusParamsChanged st <= R + 1 /\
    (types.Height (types.Header_ rollbackBlock) = R ->
     LastHeightValidatorsChanged st <= LastBlockHeight st + 1 /\
     LastHeightConsensusParamsChanged st <= LastBlockHeight st + 1).
Proof.
  intros HL HE HH HR HLt HV HP HiV HiP R.
  assert (HRi : in_int64 R) by apply wrap64_in_int64.
  assert (Clamp : forall c, in_int64 c ->
            (if c >? R then add64 R 1 else c) = (if c >? R then R + 1 else c) /\
            (if c >? R then add64 R 1 else c) <= R + 1).
  { intros c Hc. destruct (c >? R) eqn:Hgt.
    - apply Z.gtb_lt in Hgt. rewrite (add64_1_below _ _ HRi Hc Hgt). lia.
    - pose proof (Zgt_cases c R) as K. rewrite Hgt in K. lia. }
  destruct (Clamp _ HiV) as [EV LV]. destruct (Clamp _ HiP) as [EP LP].
  destruct (Rollback_saves removeBlock pvc w S rollbackBlock latestBlock
              prevValidators prevParams HL HE HH HR HLt HV HP) as (evs & Ht & Hs).
  exists evs. eexists. split; [exact Ht | split; [exact Hs | ]].
  cbn [rolledBackState LastHeightValidatorsChanged
       LastHeightConsensusParamsChanged LastBlockHeight]. fold R.
  split; [exact EV | split; [exact EP | split; [exact LV | split; [exact LP | ]]]].
  intros HRh. rewrite HRh. split; assumption.
Qed.

(** What the code does with the hashes for [removeBlock = true]: the state
    handed to [Save] has the [LastResultsHash] of the block at [R] as its
    [AppHash] and that block's [AppHash] as its [LastResultsHash]. *)
Lemma Rollback_hashes_block_removed
    (pvc : option config_PrivValidatorConfig) (w : World) (S : State)
    (rollbackBlock latestBlock : types.BlockMeta types_BlockID time_Time)
    (prevValidators : option types_ValidatorSet)
    (prevParams : types_ConsensusParams) :
  Load (w_ss w) = (S, None) ->
  IsEmpty S = false ->
  Height (w_bs w) = LastBlockHeight S ->
  LoadBlockMeta (w_bs w) (sub64 (LastBlockHeight S) 1) = Some rollbackBlock ->
  LoadBlockMeta (w_bs w) (LastBlockHeight S) = Some latestBlock ->
  LoadValidators (w_ss w) (sub64 (LastBlockHeight S) 1) = (prevValidators, None) ->
  LoadConsensusParams (w_ss w) (add64 (sub64 (LastBlockHeight S) 1) 1)
    = (prevParams, None) ->
  exists evs st,
    w_trace (fst (Rollback true pvc w)) = (w_trace w ++ evs)%list /\
    saved evs = [st] /\
    AppHash st = types.LastResultsHash (types.Header_ rollbackBlock) /\
    LastResultsHash st = types.AppHash (types.Header_ rollbackBlock).
Proof.
  intros HL HE HH HR HLt HV HP.
  destruct (Rollback_saves true pvc w S rollbackBlock latestBlock
              prevValidators prevParams HL HE HH HR HLt HV HP) as (evs & Ht & Hs).
  exists evs. eexists. split; [exact Ht | split; [exact Hs | ]].
  split; reflexivity.
Qed.

(** C6: the state handed to [Save] keeps [ChainID] and [InitialHeight], takes
    height, block id and time from the meta loaded at [R], shifts the three
    validator sets down by one, holds the parameters loaded at [R + 1], and
    has their [AppVersion] as the application version. *)
Theorem Rollback_reconstructed_fields
    (removeBlock : bool) (pvc : option config_PrivValidatorConfig)
    (w : World) (S : State)
    (rollbackBlock latestBlock : types.BlockMeta types_BlockID time_Time)
    (prevValidators : option types_ValidatorSet)
    (prevParams : types_ConsensusParams) :
  Load (w_ss w) = (S, None) ->
  IsEmpty S = false ->
  Height (w_bs w) = LastBlockHeight S ->
  LoadBlockMeta (w_bs w) (sub64 (LastBlockHeight S) 1) = Some rollbackBlock ->
  LoadBlockMeta (w_bs w) (LastBlockHeight S) = Some latestBlock ->
  LoadValidators (w_ss w) (sub64 (LastBlockHeight S) 1) = (prevValidators, None) ->
  LoadConsensusParams (w_ss w) (add64 (sub64 (LastBlockHeight S) 1) 1)
    = (prevParams, None) ->
  exists evs st,
    w_trace (fst (Rollback removeBlock pvc w)) = (w_trace w ++ evs)%list /\
    saved evs = [st] /\
    ChainID st = ChainID S /\
    InitialHeight st = InitialHeight S /\
    LastBlockHeight st = types.Height (types.Header_ rollbackBlock) /\
    LastBlockID st = types.BlockID rollbackBlock /\
    LastBlockTime st = types.Time (types.Header_ rollbackBlock) /\
    NextValidators st = Validators S /\
    Validators st = LastValidators S /\
    LastValidators st = prevValidators /\
    ConsensusParams st = prevParams /\
    version.App (Consensus (Version st)) = Version_AppVersion prevParams.
Proof.
  intros HL HE HH HR HLt HV HP.
  destruct (Rollback_saves removeBlock pvc w S rollbackBlock latestBlock
              prevValidators prevParams HL HE HH HR HLt HV HP) as (evs & Ht & Hs).
  exists evs. eexists. split; [exact Ht | split; [exact Hs | ]].
  repeat split.
Qed.

(** C7: in the rollback case with [removeBlock = true], when the state is
    saved and the block deleted but the checkpoint cannot be loaded or cannot
    be reset, the result is [(-1, nil, err)] with an error, while both stores
    hold what the save and the deletion left. *)
Theorem Rollback_checkpoint_reset_fails
    (cfg : config_PrivValidatorConfig) (w : World) (S : State)
    (rollbackBlock latestBlock : types.BlockMeta types_BlockID time_Time)
    (prevValidators : option types_ValidatorSet)
    (prevParams : types_ConsensusParams) (ss' : SS) (bs' : BS) :
  Load (w_ss w) = (S, None) ->
  IsEmpty S = false ->
  Height (w_bs w) = LastBlockHeight S ->
  LoadBlockMeta (w_bs w) (sub64 (LastBlockHeight S) 1) = Some rollbackBlock ->
  LoadBlockMeta (w_bs w) (LastBlockHeight S) = Some latestBlock ->
  LoadValidators (w_ss w) (sub64 (LastBlockHeight S) 1) = (prevValidators, None) ->
  LoadConsensusParams (w_ss w) (add64 (sub64 (LastBlockHeight S) 1) 1)
    = (prevParams, None) ->
  Save (w_ss w)
    (rolledBackState true S (sub64 (LastBlockHeight S) 1) rollbackBlock
       latestBlock prevValidators prevParams) = (ss', None) ->
  DeleteLatestBlock (w_bs w) = (bs', None) ->
  snd (LoadFilePV (w_fs w) (KeyFile cfg) (StateFile cfg)) <> None \/
  snd (Reset (w_fs w)
         (fst (LoadFilePV (w_fs w) (KeyFile cfg) (StateFile cfg)))) <> None ->
  exists e,
    snd (Rollback true (Some cfg) w) = Returned (-1, None, Some e) /\
    w_ss (fst (Rollback true (Some cfg) w)) = ss' /\
    w_bs (fst (Rollback true (Some cfg) w)) = bs'.
Proof.
  intros HL HE HH HR HLt HV HP HS HD Hfail.
  enter_rollback HL HE HH HR HLt HV HP.
  rewrite HS. exec. rewrite HD. exec.
  destruct (LoadFilePV (w_fs w) (KeyFile cfg) (StateFile cfg))
    as [filePv [le|]] eqn:HLo; exec.
  - eexists. repeat split.
  - cbn [fst snd] in Hfail.
    destruct (Reset (w_fs w) filePv) as [fs' [re|]] eqn:HRe; exec.
    + eexists. repeat split.
    + exfalso. destruct Hfail as [K | K]; apply K; reflexivity.
Qed.

(** C8: in the pending-block case two runs in a row with
    [removeBlock = false] give the same result, and the first run leaves the
    three stores as they were. *)
Theorem Rollback_pending_twice
    (pvc : option config_PrivValidatorConfig) (w : World) (S : State) :
  Load (w_ss w) = (S, None) ->
  IsEmpty S = false ->
  Height (w_bs w) = add64 (LastBlockHeight S) 1 ->
  let first := Rollback false pvc w in
  let second := Rollback false pvc (fst first) in
  snd first = snd second /\
  snd second = Returned (LastBlockHeight S, AppHash S, None) /\
  w_bs (fst first) = w_bs w /\
  w_ss (fst first) = w_ss w /\
  w_fs (fst first) = w_fs w.
Proof.
  intros HL HE HH. exec.
  rewrite HL. exec. rewrite HE. exec. rewrite HH, Z.eqb_refl. exec.
  rewrite HL. exec. rewrite HE. exec. rewrite HH, Z.eqb_refl. exec.
  repeat split.
Qed.

(** C4: in the rollback case, with a block store whose meta at a height
    records that height, a result without error carries the height
    [S.LastBlockHeight - 1] (in [int64] arithmetic, which is the integer
    [S.LastBlockHeight - 1] unless [S.LastBlockHeight] is the least [int64]). *)
Theorem Rollback_returned_height
    (removeBlock : bool) (pvc : option config_PrivValidatorConfig)
    (w : World) (S : State) (h : Z) (a : bytes) :
  Load (w_ss w) = (S, None) ->
  IsEmpty S = false ->
  Height (w_bs w) = LastBlockHeight S ->
  (forall k m, LoadBlockMeta (w_bs w) k = Some m ->
               types.Height (types.Header_ m) = k) ->
  snd (Rollback removeBlock pvc w) = Returned (h, a, None) ->
  h = sub64 (LastBlockHeight S) 1 /\
  (min_int64 < LastBlockHeight S <= max_int64 -> h = LastBlockHeight S - 1).
Proof.
  intros HL HE HH Hmeta.
  assert (Done : h = sub64 (LastBlockHeight S) 1 ->
            h = sub64 (LastBlockHeight S) 1 /\
            (min_int64 < LastBlockHeight S <= max_int64 ->
             h = LastBlockHeight S - 1)).
  { intros ->. split; [reflexivity | apply sub64_1_above]. }
  exec. rewrite HL. exec. rewrite HE. exec.
  rewrite (eqb_pending_false _ _ HH). exec. rewrite HH, Z.eqb_refl. exec.
  paths; intros K; try discriminate K; apply Done;
    injection K as <- _;
    match goal with
    | E : LoadBlockMeta _ (sub64 _ _) = Some ?m |- _ => exact (Hmeta _ _ E)
    end.
Qed.

(** Whatever the inputs, either the checkpoint is not touched, or
    [removeBlock] is set, the heights are equal, and a successful [Save] and
    a successful [DeleteLatestBlock] come before its first use. *)
Lemma checkpoint_after_save_and_delete
    (removeBlock : bool) (pvc : option config_PrivValidatorConfig) (w : World) :
  exists evs,
    w_trace (fst (Rollback removeBlock pvc w)) = (w_trace w ++ evs)%list /\
    ((count is_checkpoint evs = 0%nat /\
      w_fs (fst (Rollback removeBlock pvc w)) = w_fs w) \/
     (removeBlock = true /\
      exists S st pre msg post,
        Load (w_ss w) = (S, None) /\
        Height (w_bs w) = LastBlockHeight S /\
        evs = (pre ++ [EvSave st None; EvPrint msg; EvDeleteLatestBlock None]
                   ++ post)%list /\
        count is_checkpoint pre = 0%nat)).
Proof.
  paths; calls_made;
    first
      [ left; split; reflexivity
      | right; split; [reflexivity | ];
        eexists; eexists; eexists [_; _; _; _; _; _]; eexists; eexists;
        (split; [reflexivity | ]);
        (split; [apply Z.eqb_eq; eassumption | ]);
        split; reflexivity ].
Qed.

(** C9: in the pending-block case no call loads or resets the signing
    checkpoint and the signing files are as before, whatever [removeBlock]
    is; and on any input, a run that uses the checkpoint has
    [removeBlock = true], equal heights, and a successful [Save] followed by
    a successful [DeleteLatestBlock] before the first such use. *)
Theorem Rollback_checkpoint_use
    (removeBlock : bool) (pvc : option config_PrivValidatorConfig) (w : World) :
  exists evs,
    w_trace (fst (Rollback removeBlock pvc w)) = (w_trace w ++ evs)%list /\
    (forall S,
       Load (w_ss w) = (S, None) ->
       IsEmpty S = false ->
       Height (w_bs w) = add64 (LastBlockHeight S) 1 ->
       count is_checkpoint evs = 0%nat /\
       w_fs (fst (Rollback removeBlock pvc w)) = w_fs w) /\
    (count is_checkpoint evs <> 0%nat ->
     removeBlock = true /\
     exists S st pre msg post,
       Load (w_ss w) = (S, None) /\
       Height (w_bs w) = LastBlockHeight S /\
       evs = (pre ++ [EvSave st None; EvPrint msg; EvDeleteLatestBlock None]
                  ++ post)%list /\
       count is_checkpoint pre = 0%nat).
Proof.
  destruct (checkpoint_after_save_and_delete removeBlock pvc w)
    as (evs & Ht & [Quiet | Used]).
  - exists evs. split; [exact Ht | split].
    + intros S _ _ _. exact Quiet.
    + intros Hc. destruct Quiet as [Hz _]. contradiction.
  - exists evs. split; [exact Ht | split].
    + intros S HL _ HH. exfalso.
      destruct Used as (_ & S' & st & pre & msg & post & HL' & HH' & _).
      rewrite HL in HL'. injection HL' as <-.
      rewrite HH in HH'. exact (add64_1_neq _ HH').
    + intros _. exact Used.
Qed.

(** C10: with [removeBlock = false] a run does not depend on the
    configuration pointer and does not panic, so the nil pointer is as good
    as any; and on every input a result with an error is [(-1, nil, err)]. *)
Theorem Rollback_nil_config_and_error_results
    (removeBlock : bool) (pvc : option config_PrivValidatorConfig) (w : World) :
  Rollback false pvc w = Rollback false None w /\
  (forall msg, snd (Rollback false pvc w) <> Panicked msg) /\
  (forall h a e,
     snd (Rollback removeBlock pvc w) = Returned (h, a, Some e) ->
     h = -1 /\ a = None).
Proof.
  split; [reflexivity | split].
  - paths; intros ? K; discriminate K.
  - paths; intros ? ? ? K; try discriminate K;
      injection K as <- <- _; split; reflexivity.
Qed.

(* ------------------------------------------------------------------ *)
(** *** [resetPrivValidatorConfig] *)

(** X1: when the checkpoint cannot be loaded, [Reset] is not called, the
    signing files stay as they are, and the error is the load error under
    the prefix of line 16. *)
Theorem resetPrivValidatorConfig_load_fails
    (cfg : config_PrivValidatorConfig) (w : World)
    (filePv : privval_FilePV) (e : error) :
  LoadFilePV (w_fs w) (KeyFile cfg) (StateFile cfg) = (filePv, Some e) ->
  let w' := fst (resetPrivValidatorConfig cfg w) in
  snd (resetPrivValidatorConfig cfg w)
    = Returned (Some (wrapError
        ("failed to load private validator file: " ++ Error e) e)) /\
  w_trace w'
    = (w_trace w ++ [EvLoadFilePV (KeyFile cfg) (StateFile cfg) (Some e)])%list /\
  writes (w_trace w') = writes (w_trace w) /\
  w_fs w' = w_fs w.
Proof.
  intros HLo. exec. rewrite HLo. exec.
  repeat split. unfold writes. rewrite flat_map_app, app_nil_r. reflexivity.
Qed.

(** X2: when the checkpoint is loaded but its reset fails, the error is the
    reset error under the prefix of line 21, and the signing files hold
    whatever the failed [Reset] left. *)
Theorem resetPrivValidatorConfig_reset_fails
    (cfg : config_PrivValidatorConfig) (w : World)
    (filePv : privval_FilePV) (fs' : FS) (e : error) :
  LoadFilePV (w_fs w) (KeyFile cfg) (StateFile cfg) = (filePv, None) ->
  Reset (w_fs w) filePv = (fs', Some e) ->
  let w' := fst (resetPrivValidatorConfig cfg w) in
  snd (resetPrivValidatorConfig cfg w)
    = Returned (Some (wrapError
        ("failed to reset private validator file: " ++ Error e) e)) /\
  w_trace w'
    = (w_trace w ++ [EvLoadFilePV (KeyFile cfg) (StateFile cfg) None;
                     EvReset (Some e)])%list /\
  w_fs w' = fs'.
Proof.
  intros HLo HRe. exec. rewrite HLo. exec. rewrite HRe. exec.
  repeat split. rewrite <- app_assoc. reflexivity.
Qed.

(** X3: the function returns nil exactly when the checkpoint is loaded and
    reset without error; it then leaves the files that [Reset] produced.  It
    never touches the two stores. *)
Theorem resetPrivValidatorConfig_nil_iff
    (cfg : config_PrivValidatorConfig) (w : World) :
  let loaded := LoadFilePV (w_fs w) (KeyFile cfg) (StateFile cfg) in
  let w' := fst (resetPrivValidatorConfig cfg w) in
  (snd (resetPrivValidatorConfig cfg w) = Returned None <->
   snd loaded = None /\ snd (Reset (w_fs w) (fst loaded)) = None) /\
  (snd (resetPrivValidatorConfig cfg w) = Returned None ->
   w_fs w' = fst (Reset (w_fs w) (fst loaded))) /\
  w_bs w' = w_bs w /\ w_ss w' = w_ss w.
Proof.
  exec.
  destruct (LoadFilePV (w_fs w) (KeyFile cfg) (StateFile cfg))
    as [filePv [le|]] eqn:HLo; exec.
  - repeat split; try discriminate. intros [K _]. discriminate K.
  - destruct (Reset (w_fs w) filePv) as [fs' [re|]] eqn:HRe; exec.
    + repeat split; try discriminate. intros [_ K]. discriminate K.
    + repeat split.
Qed.

(* ------------------------------------------------------------------ *)
(** *** The failing paths of [Rollback] *)

(** X4: when the state cannot be loaded, the result is [(-1, nil, err)]
    with the store's own error, not wrapped; [Load] is the only call, so the
    block store is not even asked for its height. *)
Theorem Rollback_load_fails
    (removeBlock : bool) (pvc : option config_PrivValidatorConfig)
    (w : World) (S : State) (e : error) :
  Load (w_ss w) = (S, Some e) ->
  let w' := fst (Rollback removeBlock pvc w) in
  snd (Rollback removeBlock pvc w) = Returned (-1, None, Some e) /\
  w_trace w' = (w_trace w ++ [EvLoad (Some e)])%list /\
  w_bs w' = w_bs w /\ w_ss w' = w_ss w /\ w_fs w' = w_fs w.
Proof.
  intros HL. exec. rewrite HL. exec. repeat split.
Qed.

(** X5: when the loaded state is empty, the result is [(-1, nil, err)] with
    the message of line 36; [Load] is the only call. *)
Theorem Rollback_empty_state
    (removeBlock : bool) (pvc : option config_PrivValidatorConfig)
    (w : World) (S : State) :
  Load (w_ss w) = (S, None) ->
  IsEmpty S = true ->
  let w' := fst (Rollback removeBlock pvc w) in
  snd (Rollback removeBlock pvc w)
    = Returned (-1, None, Some (errorString "no state found")) /\
  w_trace w' = (w_trace w ++ [EvLoad None])%list /\
  w_bs w' = w_bs w /\ w_ss w' = w_ss w /\ w_fs w' = w_fs w.
Proof.
  intros HL HE. exec. rewrite HL. exec. rewrite HE. exec. repeat split.
Qed.

(** X6: in the rollback case, when the meta at [R = S.LastBlockHeight - 1]
    is missing, or that one is there and the meta at [S.LastBlockHeight] is
    missing, the result is [(-1, nil, err)] whose message names the missing
    height; nothing is written and neither validators nor parameters are
    loaded. *)
Theorem Rollback_block_not_found
    (removeBlock : bool) (pvc : option config_PrivValidatorConfig)
    (w : World) (S : State) (missing : Z) :
  Load (w_ss w) = (S, None) ->
  IsEmpty S = false ->
  Height (w_bs w) = LastBlockHeight S ->
  (LoadBlockMeta (w_bs w) (sub64 (LastBlockHeight S) 1) = None /\
   missing = sub64 (LastBlockHeight S) 1) \/
  (LoadBlockMeta (w_bs w) (sub64 (LastBlockHeight S) 1) <> None /\
   LoadBlockMeta (w_bs w) (LastBlockHeight S) = None /\
   missing = LastBlockHeight S) ->
  let w' := fst (Rollback removeBlock pvc w) in
  snd (Rollback removeBlock pvc w)
    = Returned (-1, None,
        Some (errorString ("block at height " ++ fmt_d missing ++ " not found"))) /\
  w_bs w' = w_bs w /\ w_ss w' = w_ss w /\ w_fs w' = w_fs w /\
  exists evs,
    w_trace w' = (w_trace w ++ evs)%list /\
    writes evs = [] /\
    Forall (fun ev => match ev with
                      | EvLoadValidators _ _ | EvLoadConsensusParams _ _ => False
                      | _ => True
                      end) evs.
Proof.
  intros HL HE HH Hmiss. exec.
  rewrite HL. exec. rewrite HE. exec.
  rewrite (eqb_pending_false _ _ HH). exec. rewrite HH, Z.eqb_refl. exec.
  destruct Hmiss as [[HR ->] | (HR & HLt & ->)].
  - rewrite HR. exec. repeat split. calls_made.
    split; [reflexivity | repeat constructor].
  - destruct (LoadBlockMeta (w_bs w) (sub64 (LastBlockHeight S) 1))
      as [rollbackBlock|]; [ | contradiction].
    exec. rewrite HLt. exec. repeat split. calls_made.
    split; [reflexivity | repeat constructor].
Qed.

(** X7: in the rollback case with both metas there, when the validator set
    at [R] cannot be loaded, or it can and the parameters at [R + 1] cannot,
    the result is [(-1, nil, err)] with the store's own error, not wrapped,
    and nothing is written. *)
Theorem Rollback_history_load_fails
    (removeBlock : bool) (pvc : option config_PrivValidatorConfig)
    (w : World) (S : State)
    (rollbackBlock latestBlock : types.BlockMeta types_BlockID time_Time)
    (e : error) :
  Load (w_ss w) = (S, None) ->
  IsEmpty S = false ->
  Height (w_bs w) = LastBlockHeight S ->
  LoadBlockMeta (w_bs w) (sub64 (LastBlockHeight S) 1) = Some rollbackBlock ->
  LoadBlockMeta (w_bs w) (LastBlockHeight S) = Some latestBlock ->
  snd (LoadValidators (w_ss w) (sub64 (LastBlockHeight S) 1)) = Some e \/
  (snd (LoadValidators (w_ss w) (sub64 (LastBlockHeight S) 1)) = None /\
   snd (LoadConsensusParams (w_ss w) (add64 (sub64 (LastBlockHeight S) 1) 1))
     = Some e) ->
  let w' := fst (Rollback removeBlock pvc w) in
  snd (Rollback removeBlock pvc w) = Returned (-1, None, Some e) /\
  w_bs w' = w_bs w /\ w_ss w' = w_ss w /\ w_fs w' = w_fs w /\
  exists evs, w_trace w' = (w_trace w ++ evs)%list /\ writes evs = [].
Proof.
  intros HL HE HH HR HLt Hfail. exec.
  rewrite HL. exec. rewrite HE. exec.
  rewrite (eqb_pending_false _ _ HH). exec. rewrite HH, Z.eqb_refl. exec.
  rewrite HR. exec. rewrite HLt. exec.
  destruct (LoadValidators (w_ss w) (sub64 (LastBlockHeight S) 1))
    as [prevValidators [ve|]] eqn:HV; cbn [snd] in Hfail; exec.
  - destruct Hfail as [K | [K _]]; [ | discriminate K].
    injection K as ->. repeat split. calls_made. reflexivity.
  - destruct Hfail as [K | [_ K]]; [discriminate K | ].
    destruct (LoadConsensusParams (w_ss w)
                (add64 (sub64 (LastBlockHeight S) 1) 1))
      as [prevParams [pe|]] eqn:HP; cbn [snd] in K; [ | discriminate K].
    injection K as ->. exec. repeat split. calls_made. reflexivity.
Qed.

(** X8: in the rollback case, when [Save] fails, the error is the store's
    error under the prefix of line 139; the block store and the signing files
    are not touched and no deletion is tried, also with
    [removeBlock = true]. *)
Theorem Rollback_save_fails
    (removeBlock : bool) (pvc : option config_PrivValidatorConfig)
    (w : World) (S : State)
    (rollbackBlock latestBlock : types.BlockMeta types_BlockID time_Time)
    (prevValidators : option types_ValidatorSet)
    (prevParams : types_ConsensusParams) (ss' : SS) (e : error) :
  Load (w_ss w) = (S, None) ->
  IsEmpty S = false ->
  Height (w_bs w) = LastBlockHeight S ->
  LoadBlockMeta (w_bs w) (sub64 (LastBlockHeight S) 1) = Some rollbackBlock ->
  LoadBlockMeta (w_bs w) (LastBlockHeight S) = Some latestBlock ->
  LoadValidators (w_ss w) (sub64 (LastBlockHeight S) 1) = (prevValidators, None) ->
  LoadConsensusParams (w_ss w) (add64 (sub64 (LastBlockHeight S) 1) 1)
    = (prevParams, None) ->
  Save (w_ss w)
    (rolledBackState removeBlock S (sub64 (LastBlockHeight S) 1) rollbackBlock
       latestBlock prevValidators prevParams) = (ss', Some e) ->
  let w' := fst (Rollback removeBlock pvc w) in
  snd (Rollback removeBlock pvc w)
    = Returned (-1, None,
        Some (wrapError ("failed to save rolled back state: " ++ Error e) e)) /\
  w_ss w' = ss' /\ w_bs w' = w_bs w /\ w_fs w' = w_fs w /\
  exists evs, w_trace w' = (w_trace w ++ evs)%list /\ writes evs = [WSave].
Proof.
  intros HL HE HH HR HLt HV HP HS.
  enter_rollback HL HE HH HR HLt HV HP.
  rewrite HS. exec. repeat split. calls_made. reflexivity.
Qed.

(** X9: in the rollback case with [removeBlock = true], when the state is
    saved and [DeleteLatestBlock] fails, the error is the store's error under
    the prefix of line 147; the state store already holds the saved state,
    and the signing checkpoint is neither loaded nor reset. *)
Theorem Rollback_delete_fails
    (pvc : option config_PrivValidatorConfig) (w : World) (S : State)
    (rollbackBlock latestBlock : types.BlockMeta types_BlockID time_Time)
    (prevValidators : option types_ValidatorSet)
    (prevParams : types_ConsensusParams) (ss' : SS) (bs' : BS) (e : error) :
  Load (w_ss w) = (S, None) ->
  IsEmpty S = false ->
  Height (w_bs w) = LastBlockHeight S ->
  LoadBlockMeta (w_bs w) (sub64 (LastBlockHeight S) 1) = Some rollbackBlock ->
  LoadBlockMeta (w_bs w) (LastBlockHeight S) = Some latestBlock ->
  LoadValidators (w_ss w) (sub64 (LastBlockHeight S) 1) = (prevValidators, None) ->
  LoadConsensusParams (w_ss w) (add64 (sub64 (LastBlockHeight S) 1) 1)
    = (prevParams, None) ->
  Save (w_ss w)
    (rolledBackState true S (sub64 (LastBlockHeight S) 1) rollbackBlock
       latestBlock prevValidators prevParams) = (ss', None) ->
  DeleteLatestBlock (w_bs w) = (bs', Some e) ->
  let w' := fst (Rollback true pvc w) in
  snd (Rollback true pvc w)
    = Returned (-1, None,
        Some (wrapError
          ("failed to remove final block from blockstore: " ++ Error e) e)) /\
  w_ss w' = ss' /\ w_bs w' = bs' /\ w_fs w' = w_fs w /\
  exists evs,
    w_trace w' = (w_trace w ++ evs)%list /\
    writes evs = [WSave; WDeleteLatestBlock] /\
    count is_checkpoint evs = 0%nat.
Proof.
  intros HL HE HH HR HLt HV HP HS HD.
  enter_rollback HL HE HH HR HLt HV HP.
  rewrite HS. exec. rewrite HD. exec. repeat split. calls_made.
  split; reflexivity.
Qed.

(** X10: in the pending-block case with [removeBlock = true], when
    [DeleteLatestBlock] fails, the result is [(-1, nil, err)] with the store's
    error under the prefix of line 48, not the state's height and hash; the
    state store is not touched. *)
Theorem Rollback_pending_delete_fails
    (pvc : option config_PrivValidatorConfig) (w : World) (S : State)
    (bs' : BS) (e : error) :
  Load (w_ss w) = (S, None) ->
  IsEmpty S = false ->
  Height (w_bs w) = add64 (LastBlockHeight S) 1 ->
  DeleteLatestBlock (w_bs w) = (bs', Some e) ->
  let w' := fst (Rollback true pvc w) in
  snd (Rollback true pvc w)
    = Returned (-1, None,
        Some (wrapError
          ("failed to remove final block from blockstore: " ++ Error e) e)) /\
  w_ss w' = w_ss w /\ w_bs w' = bs' /\ w_fs w' = w_fs w.
Proof.
  intros HL HE HH HD. exec.
  rewrite HL. exec. rewrite HE. exec. rewrite HH, Z.eqb_refl. exec.
  rewrite HD. exec. repeat split.
Qed.

(** X11: in the rollback case with [removeBlock = true] and a nil
    configuration pointer, once the state is saved and the block deleted the
    call panics on the dereference of line 150: nothing is returned, the
    state store holds the saved state, the block is gone, and the signing
    checkpoint is not touched. *)
Theorem Rollback_nil_config_panics
    (w : World) (S : State)
    (rollbackBlock latestBlock : types.BlockMeta types_BlockID time_Time)
    (prevValidators : option types_ValidatorSet)
    (prevParams : types_ConsensusParams) (ss' : SS) (bs' : BS) :
  Load (w_ss w) = (S, None) ->
  IsEmpty S = false ->
  Height (w_bs w) = LastBlockHeight S ->
  LoadBlockMeta (w_bs w) (sub64 (LastBlockHeight S) 1) = Some rollbackBlock ->
  LoadBlockMeta (w_bs w) (LastBlockHeight S) = Some latestBlock ->
  LoadValidators (w_ss w) (sub64 (LastBlockHeight S) 1) = (prevValidators, None) ->
  LoadConsensusParams (w_ss w) (add64 (sub64 (LastBlockHeight S) 1) 1)
    = (prevParams, None) ->
  Save (w_ss w)
    (rolledBackState true S (sub64 (LastBlockHeight S) 1) rollbackBlock
       latestBlock prevValidators prevParams) = (ss', None) ->
  DeleteLatestBlock (w_bs w) = (bs', None) ->
  let w' := fst (Rollback true None w) in
  (exists msg, snd (Rollback true None w) = Panicked msg) /\
  w_ss w' = ss' /\ w_bs w' = bs' /\ w_fs w' = w_fs w /\
  exists evs,
    w_trace w' = (w_trace w ++ evs)%list /\
    writes evs = [WSave; WDeleteLatestBlock] /\
    count is_checkpoint evs = 0%nat.
Proof.
  intros HL HE HH HR HLt HV HP HS HD.
  enter_rollback HL HE HH HR HLt HV HP.
  rewrite HS. exec. rewrite HD. exec.
  split; [eexists; reflexivity | repeat split].
  calls_made. split; reflexivity.
Qed.

(* ------------------------------------------------------------------ *)
(** *** The successful paths of [Rollback] *)

(** X12: in the rollback case with [removeBlock = true] and a configuration,
    when the save, the deletion, the load of the checkpoint and its reset all
    succeed, the result has no error and carries the height and the [AppHash]
    of the state that was saved; the three stores hold what [Save],
    [DeleteLatestBlock] and [Reset] produced, written in this order. *)
Theorem Rollback_block_removed_done
    (cfg : config_PrivValidatorConfig) (w : World) (S : State)
    (rollbackBlock latestBlock : types.BlockMeta types_BlockID time_Time)
    (prevValidators : option types_ValidatorSet)
    (prevParams : types_ConsensusParams)
    (ss' : SS) (bs' : BS) (filePv : privval_FilePV) (fs' : FS) :
  Load (w_ss w) = (S, None) ->
  IsEmpty S = false ->
  Height (w_bs w) = LastBlockHeight S ->
  LoadBlockMeta (w_bs w) (sub64 (LastBlockHeight S) 1) = Some rollbackBlock ->
  LoadBlockMeta (w_bs w) (LastBlockHeight S) = Some latestBlock ->
  LoadValidators (w_ss w) (sub64 (LastBlockHeight S) 1) = (prevValidators, None) ->
  LoadConsensusParams (w_ss w) (add64 (sub64 (LastBlockHeight S) 1) 1)
    = (prevParams, None) ->
  Save (w_ss w)
    (rolledBackState true S (sub64 (LastBlockHeight S) 1) rollbackBlock
       latestBlock prevValidators prevParams) = (ss', None) ->
  DeleteLatestBlock (w_bs w) = (bs', None) ->
  LoadFilePV (w_fs w) (KeyFile cfg) (StateFile cfg) = (filePv, None) ->
  Reset (w_fs w) filePv = (fs', None) ->
  let w' := fst (Rollback true (Some cfg) w) in
  w_ss w' = ss' /\ w_bs w' = bs' /\ w_fs w' = fs' /\
  exists evs st,
    w_trace w' = (w_trace w ++ evs)%list /\
    saved evs = [st] /\
    writes evs = [WSave; WDeleteLatestBlock; WReset] /\
    snd (Rollback true (Some cfg) w)
      = Returned (LastBlockHeight st, AppHash st, None).
Proof.
  intros HL HE HH HR HLt HV HP HS HD HLo HRe.
  enter_rollback HL HE HH HR HLt HV HP.
  rewrite HS. exec. rewrite HD. exec. rewrite HLo. exec. rewrite HRe. exec.
  repeat split. saved_state. split; reflexivity.
Qed.

(** X13: in the rollback case with [removeBlock = false], when the save
    succeeds, the result has no error and carries the height and the
    [AppHash] of the state that was saved; the state store holds what [Save]
    produced, and that save is the only write. *)
Theorem Rollback_block_kept_done
    (pvc : option config_PrivValidatorConfig) (w : World) (S : State)
    (rollbackBlock latestBlock : types.BlockMeta types_BlockID time_Time)
    (prevValidators : option types_ValidatorSet)
    (prevParams : types_ConsensusParams) (ss' : SS) :
  Load (w_ss w) = (S, None) ->
  IsEmpty S = false ->
  Height (w_bs w) = LastBlockHeight S ->
  LoadBlockMeta (w_bs w) (sub64 (LastBlockHeight S) 1) = Some rollbackBlock ->
  LoadBlockMeta (w_bs w) (LastBlockHeight S) = Some latestBlock ->
  LoadValidators (w_ss w) (sub64 (LastBlockHeight S) 1) = (prevValidators, None) ->
  LoadConsensusParams (w_ss w) (add64 (sub64 (LastBlockHeight S) 1) 1)
    = (prevParams, None) ->
  Save (w_ss w)
    (rolledBackState false S (sub64 (LastBlockHeight S) 1) rollbackBlock
       latestBlock prevValidators prevParams) = (ss', None) ->
  let w' := fst (Rollback false pvc w) in
  w_ss w' = ss' /\ w_bs w' = w_bs w /\ w_fs w' = w_fs w /\
  exists evs st,
    w_trace w' = (w_trace w ++ evs)%list /\
    saved evs = [st] /\
    writes evs = [WSave] /\
    snd (Rollback false pvc w)
      = Returned (LastBlockHeight st, AppHash st, None).
Proof.
  intros HL HE HH HR HLt HV HP HS.
  enter_rollback HL HE HH HR HLt HV HP.
  rewrite HS. exec. repeat split. saved_state. split; reflexivity.
Qed.

(** X14: in the rollback case, a result without error means that exactly one
    state was handed to [Save], that this save succeeded and gave the state
    store its final content, and that the height and hash returned are the
    [LastBlockHeight] and [AppHash] of that state. *)
Theorem Rollback_result_is_saved_state
    (removeBlock : bool) (pvc : option config_PrivValidatorConfig)
    (w : World) (S : State) (h : Z) (a : bytes) :
  Load (w_ss w) = (S, None) ->
  IsEmpty S = false ->
  Height (w_bs w) = LastBlockHeight S ->
  snd (Rollback removeBlock pvc w) = Returned (h, a, None) ->
  exists evs st,
    w_trace (fst (Rollback removeBlock pvc w)) = (w_trace w ++ evs)%list /\
    saved evs = [st] /\
    Save (w_ss w) st = (w_ss (fst (Rollback removeBlock pvc w)), None) /\
    h = LastBlockHeight st /\ a = AppHash st.
Proof.
  intros HL HE HH. exec. rewrite HL. exec. rewrite HE. exec.
  rewrite (eqb_pending_false _ _ HH). exec. rewrite HH, Z.eqb_refl. exec.
  paths; intros K; try discriminate K; injection K as <- <-;
    saved_state; repeat split; assumption.
Qed.

(* ------------------------------------------------------------------ *)
(** *** What holds on every input *)

(** X15: on every input the writes of a run are, in order, a [Save], then a
    [DeleteLatestBlock], then a [Reset], cut off after any of them, or the one
    [DeleteLatestBlock] of the pending-block case: no store is written
    twice, the block is never deleted before the state is saved in the
    rollback case, and the checkpoint is never reset before the deletion. *)
Theorem Rollback_writes_in_order
    (removeBlock : bool) (pvc : option config_PrivValidatorConfig) (w : World) :
  exists evs,
    w_trace (fst (Rollback removeBlock pvc w)) = (w_trace w ++ evs)%list /\
    (writes evs = [] \/
     writes evs = [WDeleteLatestBlock] \/
     writes evs = [WSave] \/
     writes evs = [WSave; WDeleteLatestBlock] \/
     writes evs = [WSave; WDeleteLatestBlock; WReset]).
Proof.
  paths; calls_made; cbn [writes flat_map app]; auto 6.
Qed.

(** X16: with [removeBlock = false] the block store and the signing files
    are the same after the run as before it, on every input, and the only
    write there can be is one [Save]. *)
Theorem Rollback_keeps_blocks
    (pvc : option config_PrivValidatorConfig) (w : World) :
  w_bs (fst (Rollback false pvc w)) = w_bs w /\
  w_fs (fst (Rollback false pvc w)) = w_fs w /\
  exists evs,
    w_trace (fst (Rollback false pvc w)) = (w_trace w ++ evs)%list /\
    (writes evs = [] \/ writes evs = [WSave]).
Proof.
  paths; (split; [reflexivity | split; [reflexivity | ]]);
    calls_made; cbn [writes flat_map app]; auto.
Qed.

(** X17: on every input, a call that reports an error is the last call of
    the run, and the run then returns [(-1, nil, err)] where [err] is that
    error, as it is or under one prefix: no error of a collaborator is
    dropped, and nothing is called after one. *)
Theorem Rollback_errors_stop_the_run
    (removeBlock : bool) (pvc : option config_PrivValidatorConfig) (w : World) :
  exists evs,
    w_trace (fst (Rollback removeBlock pvc w)) = (w_trace w ++ evs)%list /\
    Forall (fun ev => event_err ev = None) (removelast evs) /\
    forall cause,
      event_err (last evs EvHeight) = Some cause ->
      exists err,
        snd (Rollback removeBlock pvc w) = Returned (-1, None, Some err) /\
        reports err cause.
Proof.
  paths; calls_made;
    (split; [cbn [removelast app]; repeat constructor | ]);
    cbn [last app event_err]; intros cause K; try discriminate K;
    injection K as <-; eexists; (split; [reflexivity | ]);
    first [left; reflexivity | right; eexists; reflexivity].
Qed.

(* ------------------------------------------------------------------ *)
(** *** Running [Rollback] again *)

(** One below an [int64] and one up again is the number itself, also across
    the wrap. *)
Lemma add64_sub64_1 (z : Z) : in_int64 z -> add64 (sub64 z 1) 1 = z.
Proof.
  intros Hz. unfold add64, sub64.
  destruct (Z.eq_dec z min_int64) as [-> | Hne].
  - reflexivity.
  - unfold in_int64, min_int64, max_int64 in *.
    rewrite (wrap64_id (z - 1))
      by (unfold in_int64, min_int64, max_int64; lia).
    replace (z - 1 + 1) with z by lia.
    apply wrap64_id. unfold in_int64, min_int64, max_int64. lia.
Qed.

(** X18: a run of the rollback case with [removeBlock = false] that saved
    its state cannot be repeated by running again.  On a state store that
    loads what was saved, and a block store whose meta at [R] records the
    height [R], the second run finds the block store one above the state
    store, takes the pending-block path, writes nothing and returns the same
    height and hash as the first run. *)
Theorem Rollback_then_pending
    (pvc : option config_PrivValidatorConfig) (w : World) (S : State)
    (rollbackBlock latestBlock : types.BlockMeta types_BlockID time_Time)
    (prevValidators : option types_ValidatorSet)
    (prevParams : types_ConsensusParams) (ss' : SS) :
  Load (w_ss w) = (S, None) ->
  IsEmpty S = false ->
  Height (w_bs w) = LastBlockHeight S ->
  LoadBlockMeta (w_bs w) (sub64 (LastBlockHeight S) 1) = Some rollbackBlock ->
  LoadBlockMeta (w_bs w) (LastBlockHeight S) = Some latestBlock ->
  LoadValidators (w_ss w) (sub64 (LastBlockHeight S) 1) = (prevValidators, None) ->
  LoadConsensusParams (w_ss w) (add64 (sub64 (LastBlockHeight S) 1) 1)
    = (prevParams, None) ->
  let st := rolledBackState false S (sub64 (LastBlockHeight S) 1) rollbackBlock
              latestBlock prevValidators prevParams in
  Save (w_ss w) st = (ss', None) ->
  Load ss' = (st, None) ->
  IsEmpty st = false ->
  types.Height (types.Header_ rollbackBlock) = sub64 (LastBlockHeight S) 1 ->
  in_int64 (LastBlockHeight S) ->
  let first := Rollback false pvc w in
  let second := Rollback false pvc (fst first) in
  snd second = snd first /\
  snd second = Returned (sub64 (LastBlockHeight S) 1, AppHash st, None) /\
  w_ss (fst second) = ss' /\
  w_bs (fst second) = w_bs w /\
  w_fs (fst second) = w_fs w /\
  exists evs,
    w_trace (fst second) = (w_trace (fst first) ++ evs)%list /\
    writes evs = [].
Proof.
  intros HL HE HH HR HLt HV HP st HS HL' HE' Hmeta Hrange.
  assert (Hst : LastBlockHeight st = sub64 (LastBlockHeight S) 1)
    by exact Hmeta.
  assert (Hpending : (LastBlockHeight S =? add64 (LastBlockHeight st) 1) = true).
  { rewrite Hst, (add64_sub64_1 _ Hrange). apply Z.eqb_refl. }
  enter_rollback HL HE HH HR HLt HV HP.
  fold st. rewrite HS. exec.
  rewrite HL'. exec. rewrite HE'. exec. rewrite HH, Hpending. exec.
  rewrite Hst.
  repeat split. calls_made. reflexivity.
Qed.

End RollbackFacts.

(* ================================================================== *)
(** ** The theorems on the in-memory stores *)

(** The in-memory block store files each meta under its own height. *)
Lemma blockDB_heights (height : Z) (deleteErr : option error) (k : Z)
    (m : Mem.Meta) :
  LoadBlockMeta (Mem.blockDB height deleteErr) k = Some m ->
  types.Height (types.Header_ m) = k.
Proof.
  cbv [LoadBlockMeta Mem.blockStore Mem.blockDB Mem.db_metas Mem.lookup].
  intros K.
  repeat match type of K with
         | (if ?c =? k then _ else _) = _ =>
             destruct (Z.eqb_spec c k) as [E | _];
             [injection K as <-; exact E | ]
         end.
  discriminate K.
Qed.

(** Block store one above the state store, block removed: one deletion, the
    state's own height and hash returned. *)
Lemma Rollback_pending_block_witness :
  Height (w_bs (Mem.world 101)) = add64 (LastBlockHeight Mem.state100) 1 /\
  snd (Rollback true None (Mem.world 101))
    = Returned (100, Some [Byte.xa1], None) /\
  w_ss (fst (Rollback true None (Mem.world 101))) = Mem.stateDB None /\
  Height (w_bs (fst (Rollback true None (Mem.world 101)))) = 100.
Proof.
  assert (HL : Load (w_ss (Mem.world 101)) = (Mem.state100, None)) by reflexivity.
  assert (HE : IsEmpty Mem.state100 = false) by reflexivity.
  assert (HH : Height (w_bs (Mem.world 101))
               = add64 (LastBlockHeight Mem.state100) 1) by reflexivity.
  destruct (Rollback_pending_block true None (Mem.world 101) Mem.state100
              HL HE HH) as (evs & _ & Hss & _ & _ & _ & _ & Hbs & Hout).
  split; [exact HH | split; [apply Hout; reflexivity | split]].
  - exact Hss.
  - rewrite Hbs. reflexivity.
Defined.

(** Block store two above the state store: the error names 100 and 102. *)
Lemma Rollback_invariant_violation_witness :
  Height (w_bs (Mem.world 102)) <> LastBlockHeight Mem.state100 /\
  Height (w_bs (Mem.world 102)) <> add64 (LastBlockHeight Mem.state100) 1 /\
  snd (Rollback false None (Mem.world 102))
    = Returned (-1, None,
        Some (errorString
          "statestore height (100) is not one below or equal to blockstore height (102)")).
Proof.
  assert (HL : Load (w_ss (Mem.world 102)) = (Mem.state100, None)) by reflexivity.
  assert (HE : IsEmpty Mem.state100 = false) by reflexivity.
  assert (H1 : Height (w_bs (Mem.world 102)) <> LastBlockHeight Mem.state100)
    by (vm_compute; discriminate).
  assert (H2 : Height (w_bs (Mem.world 102))
               <> add64 (LastBlockHeight Mem.state100) 1)
    by (vm_compute; discriminate).
  split; [exact H1 | split; [exact H2 | ]].
  exact (proj1 (Rollback_invariant_violation false None (Mem.world 102)
                  Mem.state100 HL HE H1 H2)).
Defined.

(** Both stores at height 100, block kept: the saved and returned [AppHash]
    is the [AppHash] of block 100. *)
Lemma Rollback_hashes_block_kept_witness :
  Height (w_bs (Mem.world 100)) = LastBlockHeight Mem.state100 /\
  exists st,
    saved (w_trace (fst (Rollback false None (Mem.world 100)))) = [st] /\
    AppHash st = Some [Byte.xa0] /\
    LastResultsHash st = Some [Byte.xb0] /\
    snd (Rollback false None (Mem.world 100))
      = Returned (99, Some [Byte.xa0], None).
Proof.
  assert (HL : Load (w_ss (Mem.world 100)) = (Mem.state100, None)) by reflexivity.
  assert (HE : IsEmpty Mem.state100 = false) by reflexivity.
  assert (HH : Height (w_bs (Mem.world 100)) = LastBlockHeight Mem.state100)
    by reflexivity.
  destruct (Rollback_hashes_block_kept None (Mem.world 100) Mem.state100
              Mem.meta99 Mem.meta100 (Some ["v0"])
              {| Mem.AppVersion := 1; Mem.MaxBytes := 1024 |}
              HL HE HH eq_refl eq_refl eq_refl eq_refl)
    as (evs & st & Ht & Hs & Ha & Hr & Hout).
  split; [exact HH | ]. exists st.
  split; [rewrite Ht; exact Hs | split; [exact Ha | split; [exact Hr | ]]].
  apply Hout. reflexivity.
Defined.

(** C1 as stated fails on the stores at height 100.  With the block kept the
    saved and returned [AppHash] is block 100's [AppHash], not its
    [LastResultsHash], and the saved [LastResultsHash] is block 100's
    [LastResultsHash], not its [AppHash].  With the block removed the saved
    and returned [AppHash] is block 99's [LastResultsHash], not its
    [AppHash], and the saved [LastResultsHash] is block 99's [AppHash]. *)
Lemma Rollback_hashes_counterexample :
  (exists st,
     saved (w_trace (fst (Rollback false None (Mem.world 100)))) = [st] /\
     snd (Rollback false None (Mem.world 100))
       = Returned (99, AppHash st, None) /\
     AppHash st = types.AppHash (types.Header_ Mem.meta100) /\
     AppHash st <> types.LastResultsHash (types.Header_ Mem.meta100) /\
     LastResultsHash st = types.LastResultsHash (types.Header_ Mem.meta100) /\
     LastResultsHash st <> types.AppHash (types.Header_ Mem.meta100)) /\
  (exists st,
     saved (w_trace (fst (Rollback true (Some "/home/node") (Mem.world 100))))
       = [st] /\
     snd (Rollback true (Some "/home/node") (Mem.world 100))
       = Returned (99, AppHash st, None) /\
     AppHash st = types.LastResultsHash (types.Header_ Mem.meta99) /\
     AppHash st <> types.AppHash (types.Header_ Mem.meta99) /\
     LastResultsHash st = types.AppHash (types.Header_ Mem.meta99) /\
     LastResultsHash st <> types.LastResultsHash (types.Header_ Mem.meta99)).
Proof.
  split; eexists; (split; [vm_compute; reflexivity | ]);
    repeat split; try (vm_compute; discriminate).
Qed.

(** Both stores at height 100: the height returned is 99. *)
Lemma Rollback_returned_height_witness :
  snd (Rollback false None (Mem.world 100))
    = Returned (99, Some [Byte.xa0], None) /\
  99 = sub64 (LastBlockHeight Mem.state100) 1 /\
  (min_int64 < LastBlockHeight Mem.state100 <= max_int64 ->
   99 = LastBlockHeight Mem.state100 - 1).
Proof.
  assert (HL : Load (w_ss (Mem.world 100)) = (Mem.state100, None)) by reflexivity.
  assert (HE : IsEmpty Mem.state100 = false) by reflexivity.
  assert (HH : Height (w_bs (Mem.world 100)) = LastBlockHeight Mem.state100)
    by reflexivity.
  assert (HO : snd (Rollback false None (Mem.world 100))
               = Returned (99, Some [Byte.xa0], None)) by reflexivity.
  split; [exact HO | ].
  exact (Rollback_returned_height false None (Mem.world 100) Mem.state100
           99 (Some [Byte.xa0]) HL HE HH (blockDB_heights 100 None) HO).
Defined.

(** Both stores at height 100, validators last changed at 101, parameters at
    57: the saved state has 100 and 57. *)
Lemma Rollback_change_heights_witness :
  in_int64 (LastHeightValidatorsChanged Mem.state100) /\
  in_int64 (LastHeightConsensusParamsChanged Mem.state100) /\
  exists st,
    saved (w_trace (fst (Rollback true None (Mem.world 100)))) = [st] /\
    LastHeightValidatorsChanged st = 100 /\
    LastHeightConsensusParamsChanged st = 57 /\
    LastHeightValidatorsChanged st <= LastBlockHeight st + 1 /\
    LastHeightConsensusParamsChanged st <= LastBlockHeight st + 1.
Proof.
  assert (HL : Load (w_ss (Mem.world 100)) = (Mem.state100, None)) by reflexivity.
  assert (HE : IsEmpty Mem.state100 = false) by reflexivity.
  assert (HH : Height (w_bs (Mem.world 100)) = LastBlockHeight Mem.state100)
    by reflexivity.
  assert (HiV : in_int64 (LastHeightValidatorsChanged Mem.state100))
    by (vm_compute; split; discriminate).
  assert (HiP : in_int64 (LastHeightConsensusParamsChanged Mem.state100))
    by (vm_compute; split; discriminate).
  destruct (Rollback_change_heights true None (Mem.world 100) Mem.state100
              Mem.meta99 Mem.meta100 (Some ["v0"])
              {| Mem.AppVersion := 1; Mem.MaxBytes := 1024 |}
              HL HE HH eq_refl eq_refl eq_refl eq_refl HiV HiP)
    as (evs & st & Ht & Hs & HV & HP & _ & _ & Hinv).
  split; [exact HiV | split; [exact HiP | ]]. exists st.
  split; [rewrite Ht; exact Hs | ].
  split; [rewrite HV; reflexivity | split; [rewrite HP; reflexivity | ]].
  apply Hinv. reflexivity.
Defined.

(** Both stores at height 100: the saved state is the one at height 99. *)
Lemma Rollback_reconstructed_fields_witness :
  Height (w_bs (Mem.world 100)) = LastBlockHeight Mem.state100 /\
  exists st,
    saved (w_trace (fst (Rollback false None (Mem.world 100)))) = [st] /\
    ChainID st = "test-chain" /\
    InitialHeight st = 1 /\
    LastBlockHeight st = 99 /\
    LastBlockID st = "block-99" /\
    LastBlockTime st = 1099 /\
    NextValidators st = Some ["v1"; "v2"] /\
    Validators st = Some ["v1"] /\
    LastValidators st = Some ["v0"] /\
    ConsensusParams st = {| Mem.AppVersion := 1; Mem.MaxBytes := 1024 |} /\
    version.App (Consensus (Version st)) = 1.
Proof.
  assert (HL : Load (w_ss (Mem.world 100)) = (Mem.state100, None)) by reflexivity.
  assert (HE : IsEmpty Mem.state100 = false) by reflexivity.
  assert (HH : Height (w_bs (Mem.world 100)) = LastBlockHeight Mem.state100)
    by reflexivity.
  destruct (Rollback_reconstructed_fields false None (Mem.world 100)
              Mem.state100 Mem.meta99 Mem.meta100 (Some ["v0"])
              {| Mem.AppVersion := 1; Mem.MaxBytes := 1024 |}
              HL HE HH eq_refl eq_refl eq_refl eq_refl)
    as (evs & st & Ht & Hs & F).
  split; [exact HH | ]. exists st.
  split; [rewrite Ht; exact Hs | exact F].
Defined.

(** Both stores at height 100, block removed, a checkpoint whose reset
    fails: the state is saved at 99, block 100 is gone, and the result is an
    error. *)
Lemma Rollback_checkpoint_reset_fails_witness :
  snd (Reset (w_fs (Mem.world_resetFails 100)) 100) <> None /\
  exists e,
    snd (Rollback true (Some "/home/node") (Mem.world_resetFails 100))
      = Returned (-1, None, Some e) /\
    LastBlockHeight
      (Mem.sd_state
         (w_ss (fst (Rollback true (Some "/home/node")
                       (Mem.world_resetFails 100))))) = 99 /\
    Height (w_bs (fst (Rollback true (Some "/home/node")
                         (Mem.world_resetFails 100)))) = 99.
Proof.
  assert (HL : Load (w_ss (Mem.world_resetFails 100)) = (Mem.state100, None))
    by reflexivity.
  assert (HE : IsEmpty Mem.state100 = false) by reflexivity.
  assert (HH : Height (w_bs (Mem.world_resetFails 100))
               = LastBlockHeight Mem.state100) by reflexivity.
  assert (HF : snd (Reset (w_fs (Mem.world_resetFails 100)) 100) <> None)
    by (vm_compute; discriminate).
  destruct (Rollback_checkpoint_reset_fails "/home/node"
              (Mem.world_resetFails 100) Mem.state100 Mem.meta99 Mem.meta100
              (Some ["v0"]) {| Mem.AppVersion := 1; Mem.MaxBytes := 1024 |}
              _ _ HL HE HH eq_refl eq_refl eq_refl eq_refl eq_refl eq_refl
              (or_intror HF))
    as (e & Hout & Hss & Hbs).
  split; [exact HF | ]. exists e.
  split; [exact Hout | split].
  - exact (f_equal (fun ss => LastBlockHeight (Mem.sd_state ss)) Hss).
  - exact (f_equal (fun bs => Height bs) Hbs).
Defined.

(** Block store one above the state store, block kept: two runs, the same
    result. *)
Lemma Rollback_pending_twice_witness :
  snd (Rollback false None (Mem.world 101))
    = snd (Rollback false None (fst (Rollback false None (Mem.world 101)))) /\
  snd (Rollback false None (fst (Rollback false None (Mem.world 101))))
    = Returned (100, Some [Byte.xa1], None).
Proof.
  assert (HL : Load (w_ss (Mem.world 101)) = (Mem.state100, None)) by reflexivity.
  assert (HE : IsEmpty Mem.state100 = false) by reflexivity.
  assert (HH : Height (w_bs (Mem.world 101))
               = add64 (LastBlockHeight Mem.state100) 1) by reflexivity.
  destruct (Rollback_pending_twice None (Mem.world 101) Mem.state100 HL HE HH)
    as (Hsame & Hres & _).
  split; [exact Hsame | exact Hres].
Defined.

(** Both stores at height 100, block removed: the checkpoint is used, after
    a successful save and a successful deletion. *)
Lemma Rollback_checkpoint_use_witness :
  exists evs,
    w_trace (fst (Rollback true (Some "/home/node") (Mem.world 100))) = evs /\
    count is_checkpoint evs = 2%nat /\
    exists st pre msg post,
      evs = (pre ++ [EvSave st None; EvPrint msg; EvDeleteLatestBlock None]
                 ++ post)%list /\
      count is_checkpoint pre = 0%nat.
Proof.
  destruct (Rollback_checkpoint_use true (Some "/home/node") (Mem.world 100))
    as (evs & Ht & _ & Hused).
  exists evs. split; [exact Ht | ].
  assert (Hc : count is_checkpoint evs = 2%nat).
  { exact (eq_trans (f_equal (count is_checkpoint) (eq_sym Ht)) eq_refl). }
  split; [exact Hc | ].
  destruct Hused as (_ & S & st & pre & msg & post & _ & _ & He & Hp).
  - rewrite Hc. discriminate.
  - exists st, pre, msg, post. split; [exact He | exact Hp].
Defined.

(** Both stores at height 100, block kept, no configuration: no panic; and
    with the block removed and a failing reset the error result is
    [(-1, nil, err)]. *)
Lemma Rollback_nil_config_and_error_results_witness :
  snd (Rollback false None (Mem.world 100))
    = Returned (99, Some [Byte.xa0], None) /\
  exists e,
    snd (Rollback true (Some "/home/node") (Mem.world_resetFails 100))
      = Returned (-1, None, Some e).
Proof.
  split; [reflexivity | ].
  destruct (snd (Rollback true (Some "/home/node") (Mem.world_resetFails 100)))
    as [[[h a] [e|]] | msg] eqn:K; try (vm_compute in K; discriminate K).
  destruct (proj2 (proj2 (Rollback_nil_config_and_error_results true
                            (Some "/home/node") (Mem.world_resetFails 100)))
              h a e K) as [-> ->].
  exists e. reflexivity.
Defined.

(* ------------------------------------------------------------------ *)
(** *** The failing and the successful paths on the in-memory stores *)

(** A checkpoint that cannot be loaded: the wrapped error, files as before. *)
Lemma resetPrivValidatorConfig_load_fails_witness :
  snd (resetPrivValidatorConfig "/home/node"
         (Mem.mkWorld (Mem.blockDB 100 None) (Mem.stateDB None)
            (Mem.signFiles (Some Mem.ioError) None)))
    = Returned (Some (wrapError
        "failed to load private validator file: input/output error"
        Mem.ioError)) /\
  Mem.sf_lastSigned
    (w_fs (fst (resetPrivValidatorConfig "/home/node"
                  (Mem.mkWorld (Mem.blockDB 100 None) (Mem.stateDB None)
                     (Mem.signFiles (Some Mem.ioError) None))))) = 100.
Proof.
  assert (HLo : LoadFilePV (Mem.signFiles (Some Mem.ioError) None)
                  (KeyFile "/home/node") (StateFile "/home/node")
                = (100, Some Mem.ioError)) by reflexivity.
  destruct (resetPrivValidatorConfig_load_fails "/home/node"
              (Mem.mkWorld (Mem.blockDB 100 None) (Mem.stateDB None)
                 (Mem.signFiles (Some Mem.ioError) None))
              100 Mem.ioError HLo) as (Hout & _ & _ & Hfs).
  split; [exact Hout | exact (f_equal Mem.sf_lastSigned Hfs)].
Defined.

(** A checkpoint whose reset fails: the wrapped error. *)
Lemma resetPrivValidatorConfig_reset_fails_witness :
  snd (resetPrivValidatorConfig "/home/node" (Mem.world_resetFails 100))
    = Returned (Some (wrapError
        "failed to reset private validator file: disk full"
        (errorString "disk full"))).
Proof.
  assert (HLo : LoadFilePV (w_fs (Mem.world_resetFails 100))
                  (KeyFile "/home/node") (StateFile "/home/node")
                = (100, None)) by reflexivity.
  assert (HRe : Reset (w_fs (Mem.world_resetFails 100)) 100
                = (w_fs (Mem.world_resetFails 100),
                   Some (errorString "disk full"))) by reflexivity.
  exact (proj1 (resetPrivValidatorConfig_reset_fails "/home/node"
                  (Mem.world_resetFails 100) 100 _ (errorString "disk full")
                  HLo HRe)).
Defined.

(** An unreadable state store: its error comes back, after one call. *)
Lemma Rollback_load_fails_witness :
  snd (Rollback true None
         (Mem.mkWorld (Mem.blockDB 100 None) Mem.stateDB_unreadable
            (Mem.signFiles None None)))
    = Returned (-1, None, Some Mem.ioError) /\
  w_trace (fst (Rollback true None
                  (Mem.mkWorld (Mem.blockDB 100 None) Mem.stateDB_unreadable
                     (Mem.signFiles None None))))
    = [EvLoad (Some Mem.ioError)].
Proof.
  assert (HL : Load (w_ss (Mem.mkWorld (Mem.blockDB 100 None) Mem.stateDB_unreadable
                  (Mem.signFiles None None)))
               = (Mem.state100, Some Mem.ioError)) by reflexivity.
  destruct (Rollback_load_fails true None
              (Mem.mkWorld (Mem.blockDB 100 None) Mem.stateDB_unreadable
                 (Mem.signFiles None None))
              Mem.state100 Mem.ioError HL) as (Hout & Ht & _).
  split; [exact Hout | exact Ht].
Defined.

(** A state store that was never written. *)
Lemma Rollback_empty_state_witness :
  IsEmpty Mem.state0 = true /\
  snd (Rollback false None
         (Mem.mkWorld (Mem.blockDB 0 None) Mem.stateDB_empty
            (Mem.signFiles None None)))
    = Returned (-1, None, Some (errorString "no state found")).
Proof.
  assert (HL : Load (w_ss (Mem.mkWorld (Mem.blockDB 0 None) Mem.stateDB_empty
                  (Mem.signFiles None None)))
               = (Mem.state0, None)) by reflexivity.
  assert (HE : IsEmpty Mem.state0 = true) by reflexivity.
  split; [reflexivity | ].
  exact (proj1 (Rollback_empty_state false None
                  (Mem.mkWorld (Mem.blockDB 0 None) Mem.stateDB_empty
                     (Mem.signFiles None None))
                  Mem.state0 HL HE)).
Defined.

(** Both stores at height 100, the meta of block 99 lost. *)
Lemma Rollback_block_not_found_witness :
  LoadBlockMeta Mem.blockDB_pruned (sub64 100 1) = None /\
  snd (Rollback false None
         (Mem.mkWorld Mem.blockDB_pruned (Mem.stateDB None)
            (Mem.signFiles None None)))
    = Returned (-1, None, Some (errorString "block at height 99 not found")).
Proof.
  assert (HL : Load (w_ss (Mem.mkWorld Mem.blockDB_pruned (Mem.stateDB None)
                  (Mem.signFiles None None)))
               = (Mem.state100, None)) by reflexivity.
  assert (HE : IsEmpty Mem.state100 = false) by reflexivity.
  assert (HH : Height (w_bs (Mem.mkWorld Mem.blockDB_pruned (Mem.stateDB None)
                  (Mem.signFiles None None)))
               = LastBlockHeight Mem.state100) by reflexivity.
  split; [reflexivity | ].
  exact (proj1 (Rollback_block_not_found false None
                  (Mem.mkWorld Mem.blockDB_pruned (Mem.stateDB None)
                     (Mem.signFiles None None))
                  Mem.state100 99 HL HE HH
                  (or_introl (conj eq_refl eq_refl)))).
Defined.

(** Both stores at height 100, no validator set kept for height 99. *)
Lemma Rollback_history_load_fails_witness :
  snd (LoadValidators (Mem.stateDB_tables [] []) (sub64 100 1))
    = Some (errorString "validators not found") /\
  snd (Rollback false None
         (Mem.mkWorld (Mem.blockDB 100 None) (Mem.stateDB_tables [] [])
            (Mem.signFiles None None)))
    = Returned (-1, None, Some (errorString "validators not found")).
Proof.
  assert (HL : Load (w_ss (Mem.mkWorld (Mem.blockDB 100 None) (Mem.stateDB_tables [] [])
                  (Mem.signFiles None None)))
               = (Mem.state100, None)) by reflexivity.
  assert (HE : IsEmpty Mem.state100 = false) by reflexivity.
  assert (HH : Height (w_bs (Mem.mkWorld (Mem.blockDB 100 None) (Mem.stateDB_tables [] [])
                  (Mem.signFiles None None)))
               = LastBlockHeight Mem.state100) by reflexivity.
  split; [reflexivity | ].
  exact (proj1 (Rollback_history_load_fails false None
                  (Mem.mkWorld (Mem.blockDB 100 None) (Mem.stateDB_tables [] [])
                     (Mem.signFiles None None))
                  Mem.state100 Mem.meta99 Mem.meta100
                  (errorString "validators not found")
                  HL HE HH eq_refl eq_refl
                  (or_introl eq_refl))).
Defined.

(** Both stores at height 100, a state store that cannot be written, block
    removal asked for: the block store is still at 100. *)
Lemma Rollback_save_fails_witness :
  snd (Rollback true None
         (Mem.mkWorld (Mem.blockDB 100 None) (Mem.stateDB (Some Mem.ioError))
            (Mem.signFiles None None)))
    = Returned (-1, None,
        Some (wrapError "failed to save rolled back state: input/output error"
                Mem.ioError)) /\
  Height (w_bs (fst (Rollback true None
                       (Mem.mkWorld (Mem.blockDB 100 None)
                          (Mem.stateDB (Some Mem.ioError))
                          (Mem.signFiles None None))))) = 100.
Proof.
  assert (HL : Load (w_ss (Mem.mkWorld (Mem.blockDB 100 None)
                  (Mem.stateDB (Some Mem.ioError)) (Mem.signFiles None None)))
               = (Mem.state100, None)) by reflexivity.
  assert (HE : IsEmpty Mem.state100 = false) by reflexivity.
  assert (HH : Height (w_bs (Mem.mkWorld (Mem.blockDB 100 None)
                  (Mem.stateDB (Some Mem.ioError)) (Mem.signFiles None None)))
               = LastBlockHeight Mem.state100) by reflexivity.
  destruct (Rollback_save_fails true None
              (Mem.mkWorld (Mem.blockDB 100 None) (Mem.stateDB (Some Mem.ioError))
                 (Mem.signFiles None None))
              Mem.state100 Mem.meta99 Mem.meta100 (Some ["v0"])
              {| Mem.AppVersion := 1; Mem.MaxBytes := 1024 |} _ Mem.ioError
              HL HE HH eq_refl eq_refl eq_refl eq_refl eq_refl)
    as (Hout & _ & Hbs & _).
  split; [exact Hout | exact (f_equal (fun bs => Height bs) Hbs)].
Defined.

(** Both stores at height 100, a block store that cannot delete: the state
    store is at 99 and the block store still at 100. *)
Lemma Rollback_delete_fails_witness :
  snd (Rollback true None
         (Mem.mkWorld (Mem.blockDB 100 (Some Mem.ioError)) (Mem.stateDB None)
            (Mem.signFiles None None)))
    = Returned (-1, None,
        Some (wrapError
          "failed to remove final block from blockstore: input/output error"
          Mem.ioError)) /\
  LastBlockHeight
    (Mem.sd_state
       (w_ss (fst (Rollback true None
                     (Mem.mkWorld (Mem.blockDB 100 (Some Mem.ioError))
                        (Mem.stateDB None) (Mem.signFiles None None)))))) = 99 /\
  Height (w_bs (fst (Rollback true None
                       (Mem.mkWorld (Mem.blockDB 100 (Some Mem.ioError))
                          (Mem.stateDB None) (Mem.signFiles None None))))) = 100.
Proof.
  assert (HL : Load (w_ss (Mem.mkWorld (Mem.blockDB 100 (Some Mem.ioError))
                  (Mem.stateDB None) (Mem.signFiles None None)))
               = (Mem.state100, None)) by reflexivity.
  assert (HE : IsEmpty Mem.state100 = false) by reflexivity.
  assert (HH : Height (w_bs (Mem.mkWorld (Mem.blockDB 100 (Some Mem.ioError))
                  (Mem.stateDB None) (Mem.signFiles None None)))
               = LastBlockHeight Mem.state100) by reflexivity.
  destruct (Rollback_delete_fails None
              (Mem.mkWorld (Mem.blockDB 100 (Some Mem.ioError)) (Mem.stateDB None)
                 (Mem.signFiles None None))
              Mem.state100 Mem.meta99 Mem.meta100 (Some ["v0"])
              {| Mem.AppVersion := 1; Mem.MaxBytes := 1024 |} _ _ Mem.ioError
              HL HE HH eq_refl eq_refl eq_refl eq_refl eq_refl
              eq_refl)
    as (Hout & Hss & Hbs & _).
  split; [exact Hout | split].
  - exact (f_equal (fun ss => LastBlockHeight (Mem.sd_state ss)) Hss).
  - exact (f_equal (fun bs => Height bs) Hbs).
Defined.

(** Block store one above the state store and unable to delete. *)
Lemma Rollback_pending_delete_fails_witness :
  Height (Mem.blockDB 101 (Some Mem.ioError))
    = add64 (LastBlockHeight Mem.state100) 1 /\
  snd (Rollback true None
         (Mem.mkWorld (Mem.blockDB 101 (Some Mem.ioError)) (Mem.stateDB None)
            (Mem.signFiles None None)))
    = Returned (-1, None,
        Some (wrapError
          "failed to remove final block from blockstore: input/output error"
          Mem.ioError)).
Proof.
  assert (HL : Load (w_ss (Mem.mkWorld (Mem.blockDB 101 (Some Mem.ioError))
                  (Mem.stateDB None) (Mem.signFiles None None)))
               = (Mem.state100, None)) by reflexivity.
  assert (HE : IsEmpty Mem.state100 = false) by reflexivity.
  assert (HH : Height (w_bs (Mem.mkWorld (Mem.blockDB 101 (Some Mem.ioError))
                  (Mem.stateDB None) (Mem.signFiles None None)))
               = add64 (LastBlockHeight Mem.state100) 1) by reflexivity.
  split; [reflexivity | ].
  exact (proj1 (Rollback_pending_delete_fails None
                  (Mem.mkWorld (Mem.blockDB 101 (Some Mem.ioError))
                     (Mem.stateDB None) (Mem.signFiles None None))
                  Mem.state100 _ Mem.ioError HL HE HH eq_refl)).
Defined.

(** Both stores at height 100, block removal asked for without a
    configuration: a panic, with both stores already at 99 and the last
    signed height still 100. *)
Lemma Rollback_nil_config_panics_witness :
  (exists msg, snd (Rollback true None (Mem.world 100)) = Panicked msg) /\
  LastBlockHeight
    (Mem.sd_state (w_ss (fst (Rollback true None (Mem.world 100))))) = 99 /\
  Height (w_bs (fst (Rollback true None (Mem.world 100)))) = 99 /\
  Mem.sf_lastSigned (w_fs (fst (Rollback true None (Mem.world 100)))) = 100.
Proof.
  assert (HL : Load (w_ss (Mem.world 100))
               = (Mem.state100, None)) by reflexivity.
  assert (HE : IsEmpty Mem.state100 = false) by reflexivity.
  assert (HH : Height (w_bs (Mem.world 100))
               = LastBlockHeight Mem.state100) by reflexivity.
  destruct (Rollback_nil_config_panics (Mem.world 100)
              Mem.state100 Mem.meta99 Mem.meta100 (Some ["v0"])
              {| Mem.AppVersion := 1; Mem.MaxBytes := 1024 |} _ _
              HL HE HH eq_refl eq_refl eq_refl eq_refl eq_refl
              eq_refl)
    as (Hout & Hss & Hbs & Hfs & _).
  split; [exact Hout | split; [ | split]].
  - exact (f_equal (fun ss => LastBlockHeight (Mem.sd_state ss)) Hss).
  - exact (f_equal (fun bs => Height bs) Hbs).
  - exact (f_equal Mem.sf_lastSigned Hfs).
Defined.

(** Both stores at height 100, block removed: both stores at 99, the last
    signed height cleared, and the result that of the saved state. *)
Lemma Rollback_block_removed_done_witness :
  LastBlockHeight
    (Mem.sd_state
       (w_ss (fst (Rollback true (Some "/home/node") (Mem.world 100))))) = 99 /\
  Height (w_bs (fst (Rollback true (Some "/home/node") (Mem.world 100)))) = 99 /\
  Mem.sf_lastSigned
    (w_fs (fst (Rollback true (Some "/home/node") (Mem.world 100)))) = 0 /\
  exists st : Mem.MState,
    snd (Rollback true (Some "/home/node") (Mem.world 100))
      = Returned (LastBlockHeight st, AppHash st, None).
Proof.
  assert (HL : Load (w_ss (Mem.world 100))
               = (Mem.state100, None)) by reflexivity.
  assert (HE : IsEmpty Mem.state100 = false) by reflexivity.
  assert (HH : Height (w_bs (Mem.world 100))
               = LastBlockHeight Mem.state100) by reflexivity.
  assert (HLo : LoadFilePV (w_fs (Mem.world 100))
                  (KeyFile "/home/node") (StateFile "/home/node")
                = (100, None)) by reflexivity.
  assert (HRe : Reset (w_fs (Mem.world 100)) 100
                = ({| Mem.sf_lastSigned := 0; Mem.sf_loadErr := None;
                      Mem.sf_resetErr := None |}, None)) by reflexivity.
  destruct (Rollback_block_removed_done "/home/node" (Mem.world 100)
              Mem.state100 Mem.meta99 Mem.meta100 (Some ["v0"])
              {| Mem.AppVersion := 1; Mem.MaxBytes := 1024 |} _ _ 100 _
              HL HE HH eq_refl eq_refl eq_refl eq_refl eq_refl
              eq_refl HLo HRe)
    as (Hss & Hbs & Hfs & evs & st & _ & _ & _ & Hout).
  split; [ | split; [ | split]].
  - exact (f_equal (fun ss => LastBlockHeight (Mem.sd_state ss)) Hss).
  - exact (f_equal (fun bs => Height bs) Hbs).
  - exact (f_equal Mem.sf_lastSigned Hfs).
  - exists st. exact Hout.
Defined.

(** Both stores at height 100, block kept: the state store at 99, the block
    store still at 100. *)
Lemma Rollback_block_kept_done_witness :
  LastBlockHeight
    (Mem.sd_state (w_ss (fst (Rollback false None (Mem.world 100))))) = 99 /\
  Height (w_bs (fst (Rollback false None (Mem.world 100)))) = 100 /\
  exists st : Mem.MState,
    snd (Rollback false None (Mem.world 100))
      = Returned (LastBlockHeight st, AppHash st, None).
Proof.
  assert (HL : Load (w_ss (Mem.world 100))
               = (Mem.state100, None)) by reflexivity.
  assert (HE : IsEmpty Mem.state100 = false) by reflexivity.
  assert (HH : Height (w_bs (Mem.world 100))
               = LastBlockHeight Mem.state100) by reflexivity.
  destruct (Rollback_block_kept_done None (Mem.world 100)
              Mem.state100 Mem.meta99 Mem.meta100 (Some ["v0"])
              {| Mem.AppVersion := 1; Mem.MaxBytes := 1024 |} _
              HL HE HH eq_refl eq_refl eq_refl eq_refl eq_refl)
    as (Hss & Hbs & _ & evs & st & _ & _ & _ & Hout).
  split; [ | split].
  - exact (f_equal (fun ss => LastBlockHeight (Mem.sd_state ss)) Hss).
  - exact (f_equal (fun bs => Height bs) Hbs).
  - exists st. exact Hout.
Defined.

(** Both stores at height 100, block kept: the result (99, hash) is that of
    the one state saved. *)
Lemma Rollback_result_is_saved_state_witness :
  snd (Rollback false None (Mem.world 100))
    = Returned (99, Some [Byte.xa0], None) /\
  exists st,
    saved (w_trace (fst (Rollback false None (Mem.world 100)))) = [st] /\
    99 = LastBlockHeight st /\ Some [Byte.xa0] = AppHash st.
Proof.
  assert (HL : Load (w_ss (Mem.world 100))
               = (Mem.state100, None)) by reflexivity.
  assert (HE : IsEmpty Mem.state100 = false) by reflexivity.
  assert (HH : Height (w_bs (Mem.world 100))
               = LastBlockHeight Mem.state100) by reflexivity.
  assert (HO : snd (Rollback false None (Mem.world 100))
               = Returned (99, Some [Byte.xa0], None)) by reflexivity.
  destruct (Rollback_result_is_saved_state false None (Mem.world 100)
              Mem.state100 99 (Some [Byte.xa0]) HL HE HH HO)
    as (evs & st & Ht & Hs & _ & Hh & Ha).
  split; [exact HO | ]. exists st.
  split; [exact (eq_trans (f_equal saved Ht) Hs) | split; [exact Hh | exact Ha]].
Defined.

(** Both stores at height 100, block kept, run twice: the second run returns
    what the first returned and leaves the state store at 99. *)
Lemma Rollback_then_pending_witness :
  in_int64 (LastBlockHeight Mem.state100) /\
  snd (Rollback false None (fst (Rollback false None (Mem.world 100))))
    = Returned (99, Some [Byte.xa0], None) /\
  snd (Rollback false None (fst (Rollback false None (Mem.world 100))))
    = snd (Rollback false None (Mem.world 100)) /\
  LastBlockHeight
    (Mem.sd_state
       (w_ss (fst (Rollback false None
                     (fst (Rollback false None (Mem.world 100))))))) = 99.
Proof.
  assert (HL : Load (w_ss (Mem.world 100))
               = (Mem.state100, None)) by reflexivity.
  assert (HE : IsEmpty Mem.state100 = false) by reflexivity.
  assert (HH : Height (w_bs (Mem.world 100))
               = LastBlockHeight Mem.state100) by reflexivity.
  assert (Hr : in_int64 (LastBlockHeight Mem.state100))
    by (vm_compute; split; discriminate).
  destruct (Rollback_then_pending None (Mem.world 100)
              Mem.state100 Mem.meta99 Mem.meta100 (Some ["v0"])
              {| Mem.AppVersion := 1; Mem.MaxBytes := 1024 |} _
              HL HE HH eq_refl eq_refl eq_refl eq_refl eq_refl
              eq_refl eq_refl eq_refl Hr)
    as (Hsame & Hout & Hss & _).
  split; [exact Hr | split; [exact Hout | split; [exact Hsame | ]]].
  exact (f_equal (fun ss => LastBlockHeight (Mem.sd_state ss)) Hss).
Defined.

(** C5 as stated fails when the meta loaded at [R] records another height.
    The state at height 100 keeps both change heights within
    [LastBlockHeight + 1], the block store is at height 100 and every read of
    the rollback case succeeds, but the meta filed under 99 records 42: the
    saved state has [LastBlockHeight = 42] and
    [LastHeightValidatorsChanged = 100], which is above [42 + 1]. *)
Lemma Rollback_change_heights_counterexample :
  LastHeightValidatorsChanged Mem.state100
    <= LastBlockHeight Mem.state100 + 1 /\
  LastHeightConsensusParamsChanged Mem.state100
    <= LastBlockHeight Mem.state100 + 1 /\
  Height Mem.blockDB_misfiled = LastBlockHeight Mem.state100 /\
  LoadBlockMeta Mem.blockDB_misfiled (sub64 (LastBlockHeight Mem.state100) 1)
    = Some (Mem.meta 42 Byte.xa9 Byte.xb9) /\
  exists st,
    saved (w_trace (fst (Rollback false None
                           (Mem.mkWorld Mem.blockDB_misfiled (Mem.stateDB None)
                              (Mem.signFiles None None))))) = [st] /\
    snd (Rollback false None
           (Mem.mkWorld Mem.blockDB_misfiled (Mem.stateDB None)
              (Mem.signFiles None None)))
      = Returned (LastBlockHeight st, AppHash st, None) /\
    LastBlockHeight st = 42 /\
    LastHeightValidatorsChanged st = 100 /\
    ~ LastHeightValidatorsChanged st <= LastBlockHeight st + 1.
Proof.
  split; [vm_compute; discriminate | ].
  split; [vm_compute; discriminate | ].
  split; [reflexivity | split; [reflexivity | ]].
  eexists. split; [vm_compute; reflexivity | ].
  split; [reflexivity | split; [reflexivity | split; [reflexivity | ]]].
  cbn [LastHeightValidatorsChanged LastBlockHeight]. vm_compute.
  intros K. apply K. reflexivity.
Qed.
